(** * debian_cloud_images.cli.build: the build configuration resolver

    A shallow embedding of [src/debian_cloud_images/cli/build.py]:
    the build types and their templates, the build identifier, the ordered
    class collection [Classes], the resolver [Check] and the part of
    [BuildCommand.__init__] that drives it, followed by the properties of
    the resolved classes, versions, names and mappings. *)

From Stdlib Require Import Ascii String ZArith Lia.
From stdpp Require Import base option list strings gmap pretty.

Local Open Scope Z_scope.

(** ** Python values, exceptions and outcomes *)

(** The exceptions the modelled code can raise.  [Unmodelled] marks the
    places where a builtin is used outside the fragment embedded here. *)
Inductive exn :=
| AttributeError (obj attr : string)
| KeyError (key : string)
| IndexError (msg : string)
| ValueError (msg : string)
| ArgumentError (argument msg : string)
| Unmodelled (what : string).

Inductive outcome (A : Type) :=
| Return (a : A)
| Raise (e : exn).
Arguments Return {A} a.
Arguments Raise {A} e.

Definition returned {A} (o : outcome A) : bool :=
  match o with Return _ => true | Raise _ => false end.

Definition outcome_bind {A B} (o : outcome A) (k : A -> outcome B) : outcome B :=
  match o with Return a => k a | Raise e => Raise e end.

(** A method call on a mutable object: the object's state is threaded
    through, and is kept as it was left when an exception is raised. *)
Definition M (S A : Type) : Type := S -> outcome A * S.

Definition ret {S A} (a : A) : M S A := fun s => (Return a, s).
Definition raise {S A} (e : exn) : M S A := fun s => (Raise e, s).
Definition bind {S A B} (m : M S A) (k : A -> M S B) : M S B :=
  fun s => match m s with
           | (Return a, s') => k a s'
           | (Raise e, s') => (Raise e, s')
           end.
Definition lift {S A} (o : outcome A) : M S A := fun s => (o, s).
Definition modify {S} (f : S -> S) : M S unit := fun s => (Return tt, f s).
Definition gets {S A} (f : S -> A) : M S A := fun s => (Return (f s), s).

Declare Scope py_scope.
Delimit Scope py_scope with py.
Notation "x <- m ;; k" := (bind m (fun x => k))
  (at level 100, m at next level, right associativity) : py_scope.
Notation "m ;;; k" := (bind m (fun _ => k))
  (at level 100, right associativity) : py_scope.

(** ** Builtins: [str], [str.format], [datetime.strftime], [re.match] *)

Module Py.

(** The two kinds of value handed to [str.format] by the source. *)
Inductive value :=
| VInt (z : Z)
| VStr (s : string).

(** [str(v)]: decimal digits (with a sign) for an [int], the string
    itself for a [str]. *)
Definition str (v : value) : string :=
  match v with
  | VInt z => pretty z
  | VStr s => s
  end.

Definition is_digit (c : ascii) : bool :=
  (N_of_ascii "0" <=? N_of_ascii c)%N && (N_of_ascii c <=? N_of_ascii "9")%N.

Fixpoint all_chars (p : ascii -> bool) (s : string) : bool :=
  match s with
  | EmptyString => true
  | String c s' => p c && all_chars p s'
  end.

Fixpoint kwargs_get (kw : list (string * value)) (k : string) : option value :=
  match kw with
  | [] => None
  | (k', v) :: kw' => if String.eqb k' k then Some v else kwargs_get kw' k
  end.

(** A replacement field [{name}] or [{name!s}] looked up in the keyword
    arguments.  A field whose name is empty or a number is positional,
    and the source passes no positional argument. *)
Definition get_field (kw : list (string * value)) (name : string) : outcome string :=
  if all_chars is_digit name
  then Raise (IndexError "Replacement index out of range for positional args tuple")
  else match kwargs_get kw name with
       | Some v => Return (str v)
       | None => Raise (KeyError name)
       end.

(** Where the scanner of [str.format] is: in literal text, inside the
    name of a replacement field, or after the [!] of a conversion. *)
Inductive mode :=
| Literal
| FieldName (name : string)
| Conversion (name : string).

Fixpoint snoc (s : string) (c : ascii) : string :=
  match s with
  | EmptyString => String c EmptyString
  | String a s' => String a (snoc s' c)
  end.

Definition outcome_map {A B} (f : A -> B) (o : outcome A) : outcome B :=
  outcome_bind o (fun a => Return (f a)).

(** The characters that start a format specification, an attribute or
    index access, or a nested field. *)
Definition field_syntax (c : ascii) : bool :=
  existsb (Ascii.eqb c) [":"; "."; "["; "{"]%char.

(** [template.format] with keyword arguments, for templates made of
    literal text, the escapes [{{] and [}}], and fields [{name}] and
    [{name!s}].  The template is read from left to right, and the first
    failure met is the one raised. *)
Fixpoint format_from (m : mode) (t : string) (kw : list (string * value))
    : outcome string :=
  match m, t with
  | Literal, EmptyString => Return EmptyString
  | Literal, String "{" (String "{" t') =>
      outcome_map (String "{") (format_from Literal t' kw)
  | Literal, String "{" t' => format_from (FieldName EmptyString) t' kw
  | Literal, String "}" (String "}" t') =>
      outcome_map (String "}") (format_from Literal t' kw)
  | Literal, String "}" _ =>
      Raise (ValueError "Single '}' encountered in format string")
  | Literal, String c t' => outcome_map (String c) (format_from Literal t' kw)
  | FieldName _, EmptyString =>
      Raise (ValueError "expected '}' before end of string")
  | FieldName name, String "}" t' =>
      outcome_bind (get_field kw name)
        (fun s => outcome_map (String.append s) (format_from Literal t' kw))
  | FieldName name, String "!" t' => format_from (Conversion name) t' kw
  | FieldName name, String c t' =>
      if field_syntax c
      then Raise (Unmodelled "format specification or attribute access")
      else format_from (FieldName (snoc name c)) t' kw
  | Conversion name, String "s" (String "}" t') =>
      outcome_bind (get_field kw name)
        (fun s => outcome_map (String.append s) (format_from Literal t' kw))
  | Conversion _, _ => Raise (Unmodelled "conversion other than !s")
  end.

Definition format (t : string) (kw : list (string * value)) : outcome string :=
  format_from Literal t kw.

(** *** [datetime] and [strftime('%Y%m%d')] *)

(** The date fields of a [datetime]; the time of day plays no part in
    the format the source asks for. *)
Record datetime := { year : Z; month : Z; day : Z }.

Definition is_leap (y : Z) : bool :=
  (y mod 4 =? 0) && (negb (y mod 100 =? 0) || (y mod 400 =? 0)).

Definition days_in_month (y m : Z) : Z :=
  if m =? 2 then (if is_leap y then 29 else 28)
  else if bool_decide (m ∈ [4; 6; 9; 11]) then 30 else 31.

(** The range check of the [datetime] constructor. *)
Definition datetime_ok (d : datetime) : bool :=
  (1 <=? year d) && (year d <=? 9999) &&
  (1 <=? month d) && (month d <=? 12) &&
  (1 <=? day d) && (day d <=? days_in_month (year d) (month d)).

Fixpoint zeros (n : nat) : string :=
  match n with
  | O => EmptyString
  | S n' => String "0" (zeros n')
  end.

(** A decimal number padded with zeros on the left to [width]. *)
Definition zero_padded (width : nat) (z : Z) : string :=
  let s := pretty z in zeros (width - String.length s) +:+ s.

(** [d.strftime('%Y%m%d')].  The interpreter hands the format to the C
    library, whose [%Y] writes the year as a decimal number without
    padding (999 for the year 999), while [%m] and [%d] write the month
    and the day of the month padded with a zero to two digits. *)
Definition strftime_Ymd (d : datetime) : string :=
  pretty (year d) +:+ zero_padded 2 (month d) +:+ zero_padded 2 (day d).

(** *** [re.match] *)

(** A character set [[...]] is a list of ranges; a single character is
    the range from itself to itself. *)
Definition charset := list (ascii * ascii).

Definition in_range (c : ascii) (r : ascii * ascii) : bool :=
  (N_of_ascii r.1 <=? N_of_ascii c)%N && (N_of_ascii c <=? N_of_ascii r.2)%N.

Definition in_charset (cs : charset) (c : ascii) : bool :=
  existsb (in_range c) cs.

(** The pattern nodes the source's expression compiles to. *)
Inductive node :=
| AT_BEGINNING                  (* ^ *)
| AT_END                        (* $ *)
| IN (cs : charset)             (* [...] *)
| MAX_REPEAT_1 (cs : charset).  (* [...]+, greedy *)

Definition newline : ascii := ascii_of_nat 10.

(** Matching a compiled pattern against the rest of the subject.
    [at_start] tells whether the rest is the whole subject.  The result
    is the text matched from here on.  Without the MULTILINE flag [^]
    matches only at the start, and [$] matches at the end of the subject
    and also just before a newline that ends the subject.  A repeat
    takes as many characters as it can and gives them back one by one
    while the rest of the pattern fails. *)
Fixpoint match_nodes (p : list node) (at_start : bool) (s : string) : option string :=
  match p with
  | [] => Some EmptyString
  | AT_BEGINNING :: p' => if at_start then match_nodes p' at_start s else None
  | AT_END :: p' =>
      match s with
      | EmptyString => match_nodes p' at_start s
      | String c EmptyString =>
          if Ascii.eqb c newline then match_nodes p' at_start s else None
      | _ => None
      end
  | IN cs :: p' =>
      match s with
      | String c s' =>
          if in_charset cs c then String c <$> match_nodes p' false s' else None
      | EmptyString => None
      end
  | MAX_REPEAT_1 cs :: p' =>
      (fix repeat (taken : bool) (s : string) {struct s} : option string :=
         let stop := if taken then match_nodes p' false s else None in
         match s with
         | String c s' =>
             if in_charset cs c
             then match repeat true s' with
                  | Some r => Some (String c r)
                  | None => stop
                  end
             else stop
         | EmptyString => stop
         end) false s
  end.

(** [pattern.match(s)], giving [group(0)] of the match if there is one. *)
Definition re_match (p : list node) (s : string) : option string :=
  match_nodes p true s.

End Py.

Import Py.
Local Open Scope py_scope.

(** ** The build types *)

Module BuildType.
(** The keyword arguments [BuildType.__init__] stores on the object. *)
Record t := {
  fai_classes : list string;
  output_name : string;
  output_version : string;
  output_version_azure : string;
}.
End BuildType.

Module BuildTypeEnum.
Inductive t := dev | official.

Definition name (m : t) : string :=
  match m with dev => "dev" | official => "official" end.

Definition value (m : t) : BuildType.t :=
  match m with
  | dev =>
      {| BuildType.fai_classes := ["TYPE_DEV"];
         BuildType.output_name :=
           "debian-{release}-{vendor}-{arch}-{build_type}-{build_id}-{version}";
         BuildType.output_version := "{version}";
         BuildType.output_version_azure := "0.0.{version!s}" |}
  | official =>
      {| BuildType.fai_classes := [];
         BuildType.output_name :=
           "debian-{release}-{vendor}-{arch}-{build_type}-{version}";
         BuildType.output_version := "{date}-{version}";
         BuildType.output_version_azure := "0.{date!s}.{version!s}" |}
  end.

(** The enumeration mixes [BuildType] in: a member has its attributes. *)
Definition fai_classes (m : t) := BuildType.fai_classes (value m).
Definition output_name (m : t) := BuildType.output_name (value m).
Definition output_version (m : t) := BuildType.output_version (value m).
Definition output_version_azure (m : t) := BuildType.output_version_azure (value m).
End BuildTypeEnum.

(** ** The registry entries

    Releases, vendors and architectures come from the image configuration;
    the resolver reads the attributes below. *)

Module Release.
Record t := {
  name : string;
  basename : string;
  id : string;
  baseid : string;
  fai_classes : list string;
  arch_supports_linux_image_cloud : list string;
}.
End Release.

Module Vendor.
Record t := {
  name : string;
  fai_classes : list string;
  use_linux_image_cloud : bool;
  size : Z;
}.
End Vendor.

Module Arch.
Record t := {
  name : string;
  fai_classes : list string;
}.
End Arch.

(** ** [BuildId] *)

Module BuildId.
(** [re.compile(r"^[a-z][a-z0-9-]+$")] *)
Definition re : list node :=
  [ AT_BEGINNING;
    IN [("a", "z")]%char;
    MAX_REPEAT_1 [("a", "z"); ("0", "9"); ("-", "-")]%char;
    AT_END ].

Record t := { id : string }.

Definition __init__ (s : string) : outcome t :=
  match re_match re s with
  | None => Raise (ValueError "invalid build id value")
  | Some group0 => Return {| id := group0 |}
  end.
End BuildId.

(** ** [Classes]: the ordered class collection *)

Module Classes.
(** The private list [__data]. *)
Record t := { data : list string }.

Definition __init__ : t := {| data := [] |}.

Definition __contains__ (self : t) (v : string) : bool :=
  bool_decide (v ∈ data self).

Definition __iter__ (self : t) : list string := data self.

Definition __len__ (self : t) : nat := length (data self).

(** [self.__data.append(v)]; the log line leaves the collection alone. *)
Definition add (v : string) (self : t) : t :=
  {| data := data self ++ [v] |}.

(** [list.remove]: the first occurrence goes, an absent value raises. *)
Fixpoint list_remove (v : string) (l : list string) : option (list string) :=
  match l with
  | [] => None
  | x :: l' => if String.eqb x v then Some l' else cons x <$> list_remove v l'
  end.

Definition discard (v : string) (self : t) : outcome t :=
  match list_remove v (data self) with
  | Some l => Return {| data := l |}
  | None => Raise (ValueError "list.remove(x): x not in list")
  end.

(** [MutableSet.__ior__]: [add] for each value of the iterable, in its
    order. *)
Definition __ior__ (it : list string) (self : t) : t :=
  foldl (fun acc v => add v acc) self it.
End Classes.

(** ** [Check]: the resolver *)

Module Check.
(** The attributes of a [Check] object.  [__init__] creates [classes],
    [env] and [info]; the others exist only once a method has assigned
    them, and reading one before that raises [AttributeError]. *)
Record t := {
  classes : Classes.t;
  env : gmap string string;
  info : gmap string string;
  type : option BuildTypeEnum.t;
  release : option Release.t;
  vendor : option Vendor.t;
  arch : option Arch.t;
  build_id : option string;
  version : option string;
  version_azure : option string;
}.

(** *** Attribute and item assignment *)

Definition with_classes (f : Classes.t -> Classes.t) (c : t) : t :=
  {| classes := f (classes c); env := env c; info := info c; type := type c;
     release := release c; vendor := vendor c; arch := arch c;
     build_id := build_id c; version := version c;
     version_azure := version_azure c |}.

Definition env_set (k v : string) (c : t) : t :=
  {| classes := classes c; env := <[k := v]> (env c); info := info c;
     type := type c; release := release c; vendor := vendor c; arch := arch c;
     build_id := build_id c; version := version c;
     version_azure := version_azure c |}.

Definition info_set (k v : string) (c : t) : t :=
  {| classes := classes c; env := env c; info := <[k := v]> (info c);
     type := type c; release := release c; vendor := vendor c; arch := arch c;
     build_id := build_id c; version := version c;
     version_azure := version_azure c |}.

Definition setattr_type (x : BuildTypeEnum.t) (c : t) : t :=
  {| classes := classes c; env := env c; info := info c; type := Some x;
     release := release c; vendor := vendor c; arch := arch c;
     build_id := build_id c; version := version c;
     version_azure := version_azure c |}.

Definition setattr_release (x : Release.t) (c : t) : t :=
  {| classes := classes c; env := env c; info := info c; type := type c;
     release := Some x; vendor := vendor c; arch := arch c;
     build_id := build_id c; version := version c;
     version_azure := version_azure c |}.

Definition setattr_vendor (x : Vendor.t) (c : t) : t :=
  {| classes := classes c; env := env c; info := info c; type := type c;
     release := release c; vendor := Some x; arch := arch c;
     build_id := build_id c; version := version c;
     version_azure := version_azure c |}.

Definition setattr_arch (x : Arch.t) (c : t) : t :=
  {| classes := classes c; env := env c; info := info c; type := type c;
     release := release c; vendor := vendor c; arch := Some x;
     build_id := build_id c; version := version c;
     version_azure := version_azure c |}.

Definition setattr_build_id (x : string) (c : t) : t :=
  {| classes := classes c; env := env c; info := info c; type := type c;
     release := release c; vendor := vendor c; arch := arch c;
     build_id := Some x; version := version c;
     version_azure := version_azure c |}.

Definition setattr_version (x : string) (c : t) : t :=
  {| classes := classes c; env := env c; info := info c; type := type c;
     release := release c; vendor := vendor c; arch := arch c;
     build_id := build_id c; version := Some x;
     version_azure := version_azure c |}.

Definition setattr_version_azure (x : string) (c : t) : t :=
  {| classes := classes c; env := env c; info := info c; type := type c;
     release := release c; vendor := vendor c; arch := arch c;
     build_id := build_id c; version := version c;
     version_azure := Some x |}.

(** Reading [self.attr]. *)
Definition getattr {A} (proj : t -> option A) (attr : string) : M t A :=
  fun c => match proj c with
           | Some a => (Return a, c)
           | None => (Raise (AttributeError "Check" attr), c)
           end.

(** *** The methods *)

Definition __init__ : t :=
  let classes := Classes.__init__ in
  let classes := Classes.add "DEBIAN" classes in
  let classes := Classes.add "CLOUD" classes in
  {| classes := classes; env := ∅; info := ∅; type := None; release := None;
     vendor := None; arch := None; build_id := None; version := None;
     version_azure := None |}.

Definition set_type (_type : BuildTypeEnum.t) : M t unit :=
  modify (setattr_type _type) ;;;
  ty <- getattr type "type" ;;
  modify (info_set "type" (BuildTypeEnum.name ty)) ;;;
  ty <- getattr type "type" ;;
  modify (with_classes (Classes.__ior__ (BuildTypeEnum.fai_classes ty))).

Definition set_release (release_ : Release.t) : M t unit :=
  modify (setattr_release release_) ;;;
  r <- getattr release "release" ;;
  modify (info_set "release" (Release.basename r)) ;;;
  r <- getattr release "release" ;;
  modify (info_set "release_id" (Release.id r)) ;;;
  r <- getattr release "release" ;;
  modify (info_set "release_baseid" (Release.baseid r)) ;;;
  r <- getattr release "release" ;;
  modify (with_classes (Classes.__ior__ (Release.fai_classes r))).

Definition set_vendor (vendor_ : Vendor.t) : M t unit :=
  modify (setattr_vendor vendor_) ;;;
  v <- getattr vendor "vendor" ;;
  modify (env_set "CLOUD_RELEASE_ID" (Vendor.name v)) ;;;
  modify (info_set "vendor" (Vendor.name v)) ;;;
  v <- getattr vendor "vendor" ;;
  modify (with_classes (Classes.__ior__ (Vendor.fai_classes v))).

Definition set_arch (arch_ : Arch.t) : M t unit :=
  modify (setattr_arch arch_) ;;;
  modify (info_set "arch" (Arch.name arch_)) ;;;
  modify (with_classes (Classes.__ior__ (Arch.fai_classes arch_))).

Definition set_version (version_ : Z) (version_date : datetime)
    (build_id_ : BuildId.t) : M t unit :=
  modify (setattr_build_id (BuildId.id build_id_)) ;;;
  modify (info_set "build_id" (BuildId.id build_id_)) ;;;
  ty <- getattr type "type" ;;
  s <- lift (format (BuildTypeEnum.output_version ty)
               [("version", VInt version_);
                ("date", VStr (strftime_Ymd version_date))]) ;;
  modify (setattr_version s) ;;;
  ty <- getattr type "type" ;;
  s <- lift (format (BuildTypeEnum.output_version_azure ty)
               [("version", VInt version_);
                ("date", VStr (strftime_Ymd version_date))]) ;;
  modify (setattr_version_azure s) ;;;
  ver <- getattr version "version" ;;
  modify (env_set "CLOUD_RELEASE_VERSION" ver) ;;;
  modify (info_set "version" ver) ;;;
  v <- getattr vendor "vendor" ;;
  if String.eqb (Vendor.name v) "azure"
  then
    va <- getattr version_azure "version_azure" ;;
    modify (env_set "CLOUD_RELEASE_VERSION_AZURE" va) ;;;
    modify (info_set "version_azure" va)
  else ret tt.

(** [check]: the [and] reads [self.vendor] only when the architecture is
    among those the release supports. *)
Definition check : M t unit :=
  a <- getattr arch "arch" ;;
  r <- getattr release "release" ;;
  cloud <- (if bool_decide (Arch.name a ∈ Release.arch_supports_linux_image_cloud r)
            then v <- getattr vendor "vendor" ;; ret (Vendor.use_linux_image_cloud v)
            else ret false) ;;
  (if cloud : bool
   then modify (with_classes (Classes.add "LINUX_IMAGE_CLOUD"))
   else modify (with_classes (Classes.add "LINUX_IMAGE_BASE"))) ;;;
  modify (with_classes (Classes.add "LAST")).
End Check.

(** ** [BuildCommand.__init__] *)

Module BuildCommand.

(** The registries of the image configuration: names with their entries,
    in the order the configuration lists them. *)
Record config_image := {
  archs : list (string * Arch.t);
  releases : list (string * Release.t);
  vendors : list (string * Vendor.t);
}.

(** [registry.get(name)] *)
Fixpoint get {A} (registry : list (string * A)) (name : string) : option A :=
  match registry with
  | [] => None
  | (k, a) :: registry' => if String.eqb k name then Some a else get registry' name
  end.

(** [", ".join(registry)] *)
Fixpoint join_names {A} (registry : list (string * A)) : string :=
  match registry with
  | [] => ""
  | [(k, _)] => k
  | (k, _) :: registry' => k +:+ ", " +:+ join_names registry'
  end.

Definition invalid_value {A} (name : string) (registry : list (string * A)) : string :=
  "invalid value: " +:+ name +:+ ", select one of " +:+ join_names registry.

(** [a or b] on an optional string: [None] and the empty string are
    false, and [b] is evaluated only then. *)
Definition or_else {S} (a : option string) (b : M S string) : M S string :=
  match a with
  | Some (String c s) => ret (String c s)
  | Some EmptyString | None => b
  end.

(** What the constructor leaves on the command object.  [env] is the
    very mapping of the resolver, [c.env], under a second name; the
    builder, packaging and manifest steps are made from [c] and the
    output name. *)
Record t := {
  noop : bool;
  c : Check.t;
}.

Definition env (self : t) : gmap string string := Check.env (c self).

Section Collaborators.
(** [json.dumps] and the data directory belong to other modules. *)
Variable json_dumps : gmap string string -> string.
Variable data_path : string.

(** The resolver calls and the naming, run on the new [Check]. *)
Definition resolve (release : Release.t) (vendor : Vendor.t) (arch : Arch.t)
    (version : Z) (build_id : BuildId.t) (build_type : BuildTypeEnum.t)
    (localdebs : bool) (output_resolved : string)
    (override_name : option string) (version_date : datetime)
  : M Check.t unit :=
  Check.set_type build_type ;;;
  Check.set_release release ;;;
  Check.set_vendor vendor ;;;
  Check.set_arch arch ;;;
  Check.set_version version version_date build_id ;;;
  (if localdebs
   then modify (Check.with_classes (Classes.add "LOCALDEBS"))
   else ret tt) ;;;
  Check.check ;;;
  name <- or_else override_name
            (ty <- Check.getattr Check.type "type" ;;
             ty' <- Check.getattr Check.type "type" ;;
             r <- Check.getattr Check.release "release" ;;
             v <- Check.getattr Check.vendor "vendor" ;;
             a <- Check.getattr Check.arch "arch" ;;
             ver <- Check.getattr Check.version "version" ;;
             bid <- Check.getattr Check.build_id "build_id" ;;
             lift (format (BuildTypeEnum.output_name ty)
                     [("build_type", VStr (BuildTypeEnum.name ty'));
                      ("release", VStr (Release.name r));
                      ("vendor", VStr (Vendor.name v));
                      ("arch", VStr (Arch.name a));
                      ("version", VStr ver);
                      ("build_id", VStr bid)])) ;;
  info <- gets Check.info ;;
  modify (Check.env_set "CLOUD_BUILD_INFO" (json_dumps info)) ;;;
  modify (Check.env_set "CLOUD_BUILD_NAME" name) ;;;
  modify (Check.env_set "CLOUD_BUILD_OUTPUT_DIR" output_resolved) ;;;
  modify (Check.env_set "CLOUD_BUILD_DATA" data_path).

(** The constructor from its first line to the last entry it puts in the
    environment (build.py:224-271).  An [ArgumentError] is labelled with
    the metavar of the argument it is raised for.  What follows in the
    source, the creation of the output directory and of the builder,
    packaging and manifest steps, calls the file system and other modules
    and is not part of this definition: [Return] says that the part
    embedded here has completed. *)
Definition __init__ (config : config_image)
    (release_name vendor_name arch_name : string) (version : Z)
    (build_id : BuildId.t) (build_type : BuildTypeEnum.t)
    (localdebs : bool) (output_resolved : string) (noop_ : bool)
    (override_name : option string) (version_date : datetime)
  : outcome t :=
  let arch := get (archs config) arch_name in
  let release := get (releases config) release_name in
  let vendor := get (vendors config) vendor_name in
  match arch with
  | None => Raise (ArgumentError "ARCH" (invalid_value arch_name (archs config)))
  | Some arch =>
  match vendor with
  | None => Raise (ArgumentError "VENDOR" (invalid_value vendor_name (vendors config)))
  | Some vendor =>
  match release with
  | None => Raise (ArgumentError "RELEASE" (invalid_value release_name (releases config)))
  | Some release =>
      let '(r, c) := resolve release vendor arch version build_id build_type
                       localdebs output_resolved override_name version_date
                       Check.__init__ in
      outcome_bind r (fun _ => Return {| noop := noop_; c := c |})
  end end end.
End Collaborators.
End BuildCommand.

(** ** Notions used to state the properties *)

(** The number a string of decimal digits denotes, read from the left. *)
Definition digit_value (c : ascii) : Z := Z.of_N (N_of_ascii c) - 48.

Fixpoint decimal_value_from (acc : Z) (s : string) : Z :=
  match s with
  | EmptyString => acc
  | String c s' => decimal_value_from (10 * acc + digit_value c) s'
  end.

Definition decimal_value (s : string) : Z := decimal_value_from 0 s.

(** A string of more than one digit that starts with a zero. *)
Definition leading_zero (s : string) : bool :=
  match s with
  | String c (String _ _) => Ascii.eqb c "0"
  | _ => false
  end.

(** [s] is the decimal rendering of [n], without a sign and without
    leading zeros. *)
Definition decimal_rendering (n : Z) (s : string) : Prop :=
  s <> EmptyString /\ all_chars is_digit s = true /\
  leading_zero s = false /\ decimal_value s = n.

(** The version strings as the specification words them: for [dev] the
    version number alone and [0.0.] before it, for [official] the date,
    a hyphen and the version number, and [0.], the date, a dot and the
    version number. *)
Definition spec_version (ty : BuildTypeEnum.t) (v : Z) (date : datetime) : string :=
  match ty with
  | BuildTypeEnum.dev => pretty v
  | BuildTypeEnum.official => strftime_Ymd date +:+ "-" +:+ pretty v
  end.

Definition spec_version_azure (ty : BuildTypeEnum.t) (v : Z) (date : datetime) : string :=
  match ty with
  | BuildTypeEnum.dev => "0.0." +:+ pretty v
  | BuildTypeEnum.official => "0." +:+ strftime_Ymd date +:+ "." +:+ pretty v
  end.

(** The output name the template of the build type stands for. *)
Definition spec_name (ty : BuildTypeEnum.t) (release vendor arch version build_id : string)
    : string :=
  match ty with
  | BuildTypeEnum.dev =>
      "debian-" +:+ release +:+ "-" +:+ vendor +:+ "-" +:+ arch +:+ "-"
      +:+ BuildTypeEnum.name ty +:+ "-" +:+ build_id +:+ "-" +:+ version
  | BuildTypeEnum.official =>
      "debian-" +:+ release +:+ "-" +:+ vendor +:+ "-" +:+ arch +:+ "-"
      +:+ BuildTypeEnum.name ty +:+ "-" +:+ version
  end.

(** The architecture is among those the release supports the cloud image
    for, and the vendor asks for that image. *)
Definition enhanced (r : Release.t) (v : Vendor.t) (a : Arch.t) : bool :=
  bool_decide (Arch.name a ∈ Release.arch_supports_linux_image_cloud r)
  && Vendor.use_linux_image_cloud v.

Definition variant_tag (r : Release.t) (v : Vendor.t) (a : Arch.t) : string :=
  if enhanced r v a then "LINUX_IMAGE_CLOUD" else "LINUX_IMAGE_BASE".

(** The classes the four dimensions contribute, in the order applied. *)
Definition contributions (ty : BuildTypeEnum.t) (r : Release.t) (v : Vendor.t)
    (a : Arch.t) : list string :=
  BuildTypeEnum.fai_classes ty ++ Release.fai_classes r
  ++ Vendor.fai_classes v ++ Arch.fai_classes a.

(** The object after the version strings are stored, before the test on
    the vendor. *)
Definition versions_stored (ty : BuildTypeEnum.t) (ver : Z) (date : datetime)
    (bid : BuildId.t) (c : Check.t) : Check.t :=
  Check.info_set "version" (spec_version ty ver date)
    (Check.env_set "CLOUD_RELEASE_VERSION" (spec_version ty ver date)
       (Check.setattr_version_azure (spec_version_azure ty ver date)
          (Check.setattr_version (spec_version ty ver date)
             (Check.info_set "build_id" (BuildId.id bid)
                (Check.setattr_build_id (BuildId.id bid) c))))).

(** The metadata and the environment the constructor's calls build up,
    entry by entry in the order they are assigned. *)
Definition resolved_info (ty : BuildTypeEnum.t) (r : Release.t) (v : Vendor.t)
    (a : Arch.t) (ver : Z) (date : datetime) (bid : BuildId.t) : gmap string string :=
  let info :=
    <["version" := spec_version ty ver date]>
      (<["build_id" := BuildId.id bid]>
         (<["arch" := Arch.name a]>
            (<["vendor" := Vendor.name v]>
               (<["release_baseid" := Release.baseid r]>
                  (<["release_id" := Release.id r]>
                     (<["release" := Release.basename r]>
                        (<["type" := BuildTypeEnum.name ty]> ∅))))))) in
  if String.eqb (Vendor.name v) "azure"
  then <["version_azure" := spec_version_azure ty ver date]> info
  else info.

Definition resolved_env (ty : BuildTypeEnum.t) (v : Vendor.t) (ver : Z)
    (date : datetime) : gmap string string :=
  let env :=
    <["CLOUD_RELEASE_VERSION" := spec_version ty ver date]>
      (<["CLOUD_RELEASE_ID" := Vendor.name v]> ∅) in
  if String.eqb (Vendor.name v) "azure"
  then <["CLOUD_RELEASE_VERSION_AZURE" := spec_version_azure ty ver date]> env
  else env.

(** The name the constructor settles on. *)
Definition resolved_name (ty : BuildTypeEnum.t) (r : Release.t) (v : Vendor.t)
    (a : Arch.t) (ver : Z) (date : datetime) (bid : BuildId.t)
    (override_name : option string) : string :=
  match override_name with
  | Some (String c s) => String c s
  | _ => spec_name ty (Release.name r) (Vendor.name v) (Arch.name a)
           (spec_version ty ver date) (BuildId.id bid)
  end.

(** The classes the constructor's calls add, in order. *)
Definition resolved_classes (ty : BuildTypeEnum.t) (r : Release.t) (v : Vendor.t)
    (a : Arch.t) (localdebs : bool) : list string :=
  ["DEBIAN"; "CLOUD"] ++ contributions ty r v a
  ++ (if localdebs then ["LOCALDEBS"] else [])
  ++ [variant_tag r v a; "LAST"].

(** A string fully matches [^[a-z][a-z0-9-]+$]: a lowercase letter, then
    one or more lowercase letters, digits or hyphens, and nothing else. *)
Definition is_lower (c : ascii) : bool :=
  (N_of_ascii "a" <=? N_of_ascii c)%N && (N_of_ascii c <=? N_of_ascii "z")%N.

Definition is_id_char (c : ascii) : bool :=
  is_lower c || is_digit c || Ascii.eqb c "-".

Definition fully_matches (s : string) : bool :=
  match s with
  | String c (String c' s') => is_lower c && all_chars is_id_char (String c' s')
  | _ => false
  end.

Definition nl : string := String newline EmptyString.

Fixpoint ends_with_newline (s : string) : bool :=
  match s with
  | EmptyString => false
  | String c EmptyString => Ascii.eqb c newline
  | String _ s' => ends_with_newline s'
  end.

(** [value] occurs in [msg]. *)
Fixpoint cites (msg value : string) : bool :=
  String.prefix value msg
  || match msg with
     | EmptyString => false
     | String _ msg' => cites msg' value
     end.

(** One of the two image-variant tags. *)
Definition is_variant_tag (tag : string) : bool :=
  String.eqb tag "LINUX_IMAGE_CLOUD" || String.eqb tag "LINUX_IMAGE_BASE".

(** The classes the three registry entries bring along; [check] is the
    place where a variant tag is chosen, so a registry whose entries list
    none of them leaves the choice to [check]. *)
Definition registry_classes (r : Release.t) (v : Vendor.t) (a : Arch.t) : list string :=
  Release.fai_classes r ++ Vendor.fai_classes v ++ Arch.fai_classes a.

Definition count (tag : string) (l : list string) : nat :=
  length (filter (fun x => x = tag) l).

(** *** Sample registry entries, used to run the model on *)

Definition bookworm : Release.t :=
  {| Release.name := "bookworm"; Release.basename := "bookworm";
     Release.id := "12"; Release.baseid := "12";
     Release.fai_classes := ["BOOKWORM"; "EXTRAS"];
     Release.arch_supports_linux_image_cloud := ["amd64"; "arm64"] |}.

Definition azure : Vendor.t :=
  {| Vendor.name := "azure"; Vendor.fai_classes := ["AZURE"];
     Vendor.use_linux_image_cloud := true; Vendor.size := 30 |}.

Definition nocloud : Vendor.t :=
  {| Vendor.name := "nocloud"; Vendor.fai_classes := ["NOCLOUD"];
     Vendor.use_linux_image_cloud := false; Vendor.size := 8 |}.

Definition amd64 : Arch.t :=
  {| Arch.name := "amd64"; Arch.fai_classes := ["AMD64"; "GRUB_CLOUD"] |}.

Definition sample_config : BuildCommand.config_image :=
  {| BuildCommand.archs := [("amd64", amd64)];
     BuildCommand.releases := [("bookworm", bookworm)];
     BuildCommand.vendors := [("azure", azure); ("nocloud", nocloud)] |}.

Definition sample_date : datetime := {| year := 2024; month := 5; day := 1 |}.

(** A date before the year 1000. *)
Definition early_date : datetime := {| year := 999; month := 1; day := 2 |}.

(** A release whose own classes list a variant tag. *)
Definition bookworm_listing_base : Release.t :=
  {| Release.name := "bookworm"; Release.basename := "bookworm";
     Release.id := "12"; Release.baseid := "12";
     Release.fai_classes := ["BOOKWORM"; "LINUX_IMAGE_BASE"];
     Release.arch_supports_linux_image_cloud := ["amd64"; "arm64"] |}.

Definition sample_build_id : BuildId.t := {| BuildId.id := "test-1" |}.

Definition sample_json_dumps (info : gmap string string) : string := "{}".

(** The object after the four dimension setters, called on a new
    [Check] in the order the constructor calls them. *)
Definition dimensions_applied (ty : BuildTypeEnum.t) (r : Release.t)
    (v : Vendor.t) (a : Arch.t) : Check.t :=
  ((Check.set_type ty ;;; Check.set_release r ;;;
    Check.set_vendor v ;;; Check.set_arch a) Check.__init__).2.

(** The output name a finished constructor has put in the environment. *)
Definition build_name (o : outcome BuildCommand.t) : option string :=
  match o with
  | Return self => BuildCommand.env self !! "CLOUD_BUILD_NAME"
  | Raise _ => None
  end.

(** The repeat of the expression followed by its [$], as the matcher
    runs it. *)
Definition repeat_then_end (cs : charset) : bool -> string -> option string :=
  fix repeat (taken : bool) (s : string) {struct s} : option string :=
    let stop := if taken then match_nodes [AT_END] false s else None in
    match s with
    | String c s' =>
        if in_charset cs c
        then match repeat true s' with
             | Some r => Some (String c r)
             | None => stop
             end
        else stop
    | EmptyString => stop
    end.

(** ** Strings *)

(** [String.append] is kept folded by [cbn]; this takes one step of it. *)
Ltac append_step := cbv [append]; fold append.

Section StringFacts.

Lemma append_nil_r (s : string) : s +:+ "" = s.
Proof. induction s as [|c s IH]; append_step; [reflexivity | by rewrite IH]. Qed.

Lemma append_assoc (s1 s2 s3 : string) : (s1 +:+ s2) +:+ s3 = s1 +:+ s2 +:+ s3.
Proof. induction s1 as [|c s1 IH]; append_step; [reflexivity | by rewrite IH]. Qed.

Lemma length_append (s1 s2 : string) :
  String.length (s1 +:+ s2) = (String.length s1 + String.length s2)%nat.
Proof. induction s1 as [|c s1 IH]; append_step; cbn; [reflexivity | by rewrite IH]. Qed.

Lemma all_chars_append p (s1 s2 : string) :
  all_chars p (s1 +:+ s2) = all_chars p s1 && all_chars p s2.
Proof.
  induction s1 as [|c s1 IH]; append_step; cbn; [reflexivity |].
  by rewrite IH, andb_assoc.
Qed.

Lemma decimal_value_from_append acc (s1 s2 : string) :
  decimal_value_from acc (s1 +:+ s2)
  = decimal_value_from (decimal_value_from acc s1) s2.
Proof.
  revert acc; induction s1 as [|c s1 IH]; intros acc; append_step; cbn;
    [reflexivity | apply IH].
Qed.

Lemma decimal_value_from_shift acc (s : string) :
  decimal_value_from acc s = acc * 10 ^ Z.of_nat (String.length s) + decimal_value s.
Proof.
  unfold decimal_value. revert acc.
  induction s as [|c s IH]; intros acc.
  - cbn. lia.
  - cbn [decimal_value_from String.length].
    rewrite (IH (10 * acc + digit_value c)), (IH (10 * 0 + digit_value c)).
    rewrite Nat2Z.inj_succ, Z.pow_succ_r by lia. lia.
Qed.

Lemma decimal_value_append (s1 s2 : string) :
  decimal_value (s1 +:+ s2)
  = decimal_value s1 * 10 ^ Z.of_nat (String.length s2) + decimal_value s2.
Proof.
  unfold decimal_value at 1. rewrite decimal_value_from_append.
  apply decimal_value_from_shift.
Qed.

Lemma length_zeros n : String.length (zeros n) = n.
Proof. induction n as [|n IH]; cbn; [reflexivity | by rewrite IH]. Qed.

Lemma all_chars_zeros n : all_chars is_digit (zeros n) = true.
Proof. induction n as [|n IH]; cbn; [reflexivity | exact IH]. Qed.

Lemma decimal_value_zeros n (s : string) :
  decimal_value (zeros n +:+ s) = decimal_value s.
Proof.
  rewrite decimal_value_append.
  assert (decimal_value (zeros n) = 0) as ->; [| lia].
  unfold decimal_value. induction n as [|n IH]; cbn; [reflexivity | exact IH].
Qed.

End StringFacts.

(** ** The decimal digits [str] gives an [int] *)

Section Decimal.

Lemma pretty_N_char_digit (y : N) :
  (y < 10)%N ->
  is_digit (pretty_N_char y) = true /\
  digit_value (pretty_N_char y) = Z.of_N y /\
  (pretty_N_char y = "0"%char -> y = 0%N).
Proof.
  intros Hy.
  assert (y = 0 \/ y = 1 \/ y = 2 \/ y = 3 \/ y = 4 \/ y = 5 \/ y = 6
          \/ y = 7 \/ y = 8 \/ y = 9)%N as Hcases by lia.
  repeat (destruct Hcases as [-> | Hcases]); try subst y;
    (split; [reflexivity | split; [reflexivity | intros H; try reflexivity; discriminate H]]).
Qed.

(** What the digit loop of [pretty] puts in front of its accumulator. *)
Record digits_of (x : N) (p : string) : Prop := {
  digits_all : all_chars is_digit p = true;
  digits_value : decimal_value p = Z.of_N x;
  digits_zero : x = 0%N -> p = EmptyString;
  digits_head : (0 < x)%N -> exists c p', p = String c p' /\ c <> "0"%char;
  digits_length : forall k : nat, (x < 10 ^ N.of_nat k)%N -> (String.length p <= k)%nat;
}.

Lemma pretty_N_go_digits (x : N) (s : string) :
  exists p, pretty_N_go x s = p +:+ s /\ digits_of x p.
Proof.
  revert s. induction (N.lt_wf_0 x) as [x _ IH]; intros s.
  destruct (decide (x = 0%N)) as [-> | Hx].
  - exists EmptyString. split; [reflexivity |].
    split; try reflexivity; try lia. intros k _. cbn. lia.
  - assert (0 < x)%N as Hpos by lia.
    rewrite pretty_N_go_step by exact Hpos.
    destruct (IH (x `div` 10)%N (N.div_lt x 10 Hpos eq_refl)
                (String (pretty_N_char (x `mod` 10)) s)) as (p' & Hgo & Hp').
    destruct (pretty_N_char_digit (x `mod` 10)%N) as (Hd & Hv & Hz);
      [apply N.mod_lt; lia |].
    set (c := pretty_N_char (x `mod` 10)) in *.
    exists (p' +:+ String c EmptyString). split.
    { rewrite Hgo, append_assoc. reflexivity. }
    destruct Hp' as [Hall Hval Hzero Hhead Hlen].
    split.
    + rewrite all_chars_append, Hall. cbn. by rewrite Hd.
    + rewrite decimal_value_append, Hval. cbn [String.length].
      unfold decimal_value. cbn [decimal_value_from]. rewrite Hv.
      rewrite (N.div_mod x 10) at 3 by lia.
      rewrite N2Z.inj_add, N2Z.inj_mul. change (Z.of_nat 1) with 1. lia.
    + lia.
    + intros _. destruct (decide (x `div` 10 = 0)%N) as [Hq | Hq].
      * rewrite (Hzero Hq). exists c, EmptyString. split; [reflexivity |].
        intros Hc. apply Hz in Hc.
        pose proof (N.div_mod x 10). lia.
      * assert (0 < x `div` 10)%N as Hq' by (by apply N.neq_0_lt_0).
        destruct (Hhead Hq') as (c0 & p0 & -> & Hc0).
        exists c0, (p0 +:+ String c EmptyString). split; [reflexivity | exact Hc0].
    + intros k Hk. rewrite length_append. cbn [String.length].
      destruct k as [|k]; [cbn in Hk; lia |].
      specialize (Hlen k).
      rewrite Nat2N.inj_succ, N.pow_succ_r' in Hk.
      assert (x `div` 10 < 10 ^ N.of_nat k)%N
        by (apply N.Div0.div_lt_upper_bound; lia).
      specialize (Hlen H). lia.
Qed.

Lemma pretty_N_digits (x : N) :
  (0 < x)%N -> digits_of x (pretty x).
Proof.
  intros Hx. unfold pretty, pretty_N.
  destruct (decide (x = 0%N)) as [-> | _]; [lia |].
  destruct (pretty_N_go_digits x EmptyString) as (p & Hgo & Hp).
  rewrite append_nil_r in Hgo. by rewrite Hgo.
Qed.

(** [str] of a non-negative [int] is its decimal rendering. *)
Lemma pretty_Z_decimal (z : Z) : 0 <= z -> decimal_rendering z (pretty z).
Proof.
  intros Hz. destruct z as [|p|p]; [| | lia].
  - repeat split; try reflexivity. discriminate.
  - change (pretty (Z.pos p)) with (pretty (N.pos p)).
    destruct (pretty_N_digits (N.pos p)) as [Hall Hval _ Hhead _]; [lia |].
    destruct (Hhead eq_refl) as (c & p' & Heq & Hc).
    rewrite Heq in *. repeat split; try assumption; try discriminate.
    cbn. destruct p'; [reflexivity |]. by apply Ascii.eqb_neq.
Qed.

Lemma pretty_Z_length (z : Z) (k : nat) :
  0 <= z < 10 ^ Z.of_nat k -> (0 < k)%nat -> (String.length (pretty z) <= k)%nat.
Proof.
  intros [Hz Hk] Hpos. destruct z as [|p|p]; [| | lia].
  - cbn. lia.
  - change (pretty (Z.pos p)) with (pretty (N.pos p)).
    destruct (pretty_N_digits (N.pos p)) as [_ _ _ _ Hlen]; [lia |].
    apply Hlen. apply N2Z.inj_lt. rewrite N2Z.inj_pow. cbn [Z.of_N].
    by rewrite nat_N_Z.
Qed.

End Decimal.

(** ** [strftime('%Y%m%d')] *)

Section Strftime.

Lemma zero_padded_spec (w : nat) (z : Z) :
  (0 < w)%nat -> 0 <= z < 10 ^ Z.of_nat w ->
  String.length (zero_padded w z) = w /\
  all_chars is_digit (zero_padded w z) = true /\
  decimal_value (zero_padded w z) = z.
Proof.
  intros Hw Hz. unfold zero_padded.
  pose proof (pretty_Z_length z w Hz Hw) as Hlen.
  destruct (pretty_Z_decimal z) as (_ & Hall & _ & Hval); [lia |].
  split; [| split].
  - rewrite length_append, length_zeros. lia.
  - by rewrite all_chars_append, all_chars_zeros, Hall.
  - by rewrite decimal_value_zeros.
Qed.

Lemma days_in_month_le (y m : Z) : days_in_month y m <= 31.
Proof. unfold days_in_month. repeat case_match; lia. Qed.

Lemma datetime_ok_bounds (d : datetime) :
  datetime_ok d = true ->
  1 <= year d <= 9999 /\ 1 <= month d <= 12 /\ 1 <= day d <= 31.
Proof.
  unfold datetime_ok. rewrite !andb_true_iff, !Z.leb_le.
  pose proof (days_in_month_le (year d) (month d)). lia.
Qed.

Lemma digit_value_range (c : ascii) :
  is_digit c = true -> 0 <= digit_value c <= 9.
Proof.
  unfold is_digit, digit_value. rewrite andb_true_iff, !N.leb_le.
  change (N_of_ascii "0") with 48%N. change (N_of_ascii "9") with 57%N. lia.
Qed.

(** A string of [n] digits denotes a number below [10 ^ n]. *)
Lemma decimal_value_bound (s : string) :
  all_chars is_digit s = true ->
  0 <= decimal_value s < 10 ^ Z.of_nat (String.length s).
Proof.
  induction s as [|c s IH]; [cbn; lia |].
  cbn [all_chars]. intros [Hc Hs]%andb_true_iff.
  specialize (IH Hs). apply digit_value_range in Hc.
  unfold decimal_value. cbn [decimal_value_from String.length].
  rewrite decimal_value_from_shift, Nat2Z.inj_succ, Z.pow_succ_r by lia.
  nia.
Qed.

(** The years from 1000 on are written with four digits. *)
Lemma year_four_digits (y : Z) :
  1000 <= y <= 9999 -> String.length (pretty y) = 4%nat.
Proof.
  intros Hy.
  pose proof (pretty_Z_length y 4) as Hle.
  destruct (pretty_Z_decimal y) as (_ & Hall & _ & Hval); [lia |].
  pose proof (decimal_value_bound (pretty y) Hall) as Hb. rewrite Hval in Hb.
  assert (String.length (pretty y) <= 4)%nat as Hle' by (apply Hle; [cbn |]; lia).
  destruct (decide (String.length (pretty y) <= 3)%nat) as [Hlt | Hge]; [| lia].
  exfalso.
  assert (10 ^ Z.of_nat (String.length (pretty y)) <= 10 ^ 3)
    by (apply Z.pow_le_mono_r; lia).
  lia.
Qed.

(** For a [datetime] the format gives digits only: those of the year,
    two for the month and two for the day. *)
Lemma strftime_Ymd_digits (d : datetime) :
  datetime_ok d = true ->
  String.length (strftime_Ymd d) = (String.length (pretty (year d)) + 4)%nat /\
  all_chars is_digit (strftime_Ymd d) = true /\
  decimal_value (strftime_Ymd d) = year d * 10000 + month d * 100 + day d.
Proof.
  intros Hok. apply datetime_ok_bounds in Hok as (Hy & Hm & Hd).
  destruct (pretty_Z_decimal (year d)) as (_ & Ay & _ & Vy); [lia |].
  destruct (zero_padded_spec 2 (month d)) as (Lm & Am & Vm); [lia | cbn; lia |].
  destruct (zero_padded_spec 2 (day d)) as (Ld & Ad & Vd); [lia | cbn; lia |].
  unfold strftime_Ymd. split; [| split].
  - rewrite !length_append, Lm, Ld. reflexivity.
  - by rewrite !all_chars_append, Ay, Am, Ad.
  - rewrite !decimal_value_append, !length_append, Lm, Ld, Vy, Vm, Vd.
    change (10 ^ Z.of_nat (2 + 2)) with 10000.
    change (10 ^ Z.of_nat 2) with 100. lia.
Qed.

(** From the year 1000 on these are eight digits. *)
Lemma strftime_Ymd_spec (d : datetime) :
  datetime_ok d = true -> 1000 <= year d ->
  String.length (strftime_Ymd d) = 8%nat /\
  all_chars is_digit (strftime_Ymd d) = true /\
  decimal_value (strftime_Ymd d) = year d * 10000 + month d * 100 + day d.
Proof.
  intros Hok Hy.
  destruct (strftime_Ymd_digits d Hok) as (Hlen & Hall & Hval).
  apply datetime_ok_bounds in Hok as (Hy' & _).
  rewrite year_four_digits in Hlen by lia. auto.
Qed.

End Strftime.

(** ** The templates of the two build types *)

Section Templates.

Ltac run_format :=
  cbv -[pretty append]; rewrite ?append_nil_r; reflexivity.

Lemma format_output_version (ty : BuildTypeEnum.t) (v : Z) (date : string) :
  format (BuildTypeEnum.output_version ty)
    [("version", VInt v); ("date", VStr date)]
  = Return (match ty with
            | BuildTypeEnum.dev => pretty v
            | BuildTypeEnum.official => date +:+ "-" +:+ pretty v
            end).
Proof. destruct ty; run_format. Qed.

Lemma format_output_version_azure (ty : BuildTypeEnum.t) (v : Z) (date : string) :
  format (BuildTypeEnum.output_version_azure ty)
    [("version", VInt v); ("date", VStr date)]
  = Return (match ty with
            | BuildTypeEnum.dev => "0.0." +:+ pretty v
            | BuildTypeEnum.official => "0." +:+ date +:+ "." +:+ pretty v
            end).
Proof. destruct ty; run_format. Qed.

Lemma format_output_name (ty : BuildTypeEnum.t)
    (build_type release vendor arch version build_id : string) :
  format (BuildTypeEnum.output_name ty)
    [("build_type", VStr build_type); ("release", VStr release);
     ("vendor", VStr vendor); ("arch", VStr arch);
     ("version", VStr version); ("build_id", VStr build_id)]
  = Return (match ty with
            | BuildTypeEnum.dev =>
                "debian-" +:+ release +:+ "-" +:+ vendor +:+ "-" +:+ arch +:+ "-"
                +:+ build_type +:+ "-" +:+ build_id +:+ "-" +:+ version
            | BuildTypeEnum.official =>
                "debian-" +:+ release +:+ "-" +:+ vendor +:+ "-" +:+ arch +:+ "-"
                +:+ build_type +:+ "-" +:+ version
            end).
Proof. destruct ty; run_format. Qed.

End Templates.

(** ** What each method of [Check] does to the object *)

(** Reading an attribute of an object written as a chain of assignments. *)
Ltac fields :=
  cbn [Check.classes Check.env Check.info Check.type Check.release Check.vendor
       Check.arch Check.build_id Check.version Check.version_azure
       Check.with_classes Check.env_set Check.info_set Check.setattr_type
       Check.setattr_release Check.setattr_vendor Check.setattr_arch
       Check.setattr_build_id Check.setattr_version Check.setattr_version_azure].

Section Methods.

Lemma ior_data (it : list string) (cl : Classes.t) :
  Classes.data (Classes.__ior__ it cl) = Classes.data cl ++ it.
Proof.
  unfold Classes.__ior__. revert cl.
  induction it as [|v it IH]; intros cl; cbn.
  - by rewrite app_nil_r.
  - rewrite IH. cbn. by rewrite <- app_assoc.
Qed.

Lemma set_type_run (ty : BuildTypeEnum.t) (c : Check.t) :
  Check.set_type ty c
  = (Return tt,
     Check.with_classes (Classes.__ior__ (BuildTypeEnum.fai_classes ty))
       (Check.info_set "type" (BuildTypeEnum.name ty) (Check.setattr_type ty c))).
Proof. reflexivity. Qed.

Lemma set_release_run (r : Release.t) (c : Check.t) :
  Check.set_release r c
  = (Return tt,
     Check.with_classes (Classes.__ior__ (Release.fai_classes r))
       (Check.info_set "release_baseid" (Release.baseid r)
          (Check.info_set "release_id" (Release.id r)
             (Check.info_set "release" (Release.basename r)
                (Check.setattr_release r c))))).
Proof. reflexivity. Qed.

Lemma set_vendor_run (v : Vendor.t) (c : Check.t) :
  Check.set_vendor v c
  = (Return tt,
     Check.with_classes (Classes.__ior__ (Vendor.fai_classes v))
       (Check.info_set "vendor" (Vendor.name v)
          (Check.env_set "CLOUD_RELEASE_ID" (Vendor.name v)
             (Check.setattr_vendor v c)))).
Proof. reflexivity. Qed.

Lemma set_arch_run (a : Arch.t) (c : Check.t) :
  Check.set_arch a c
  = (Return tt,
     Check.with_classes (Classes.__ior__ (Arch.fai_classes a))
       (Check.info_set "arch" (Arch.name a) (Check.setattr_arch a c))).
Proof. reflexivity. Qed.

Lemma set_version_run (ty : BuildTypeEnum.t) (v : Vendor.t) (ver : Z)
    (date : datetime) (bid : BuildId.t) (c : Check.t) :
  Check.type c = Some ty -> Check.vendor c = Some v ->
  Check.set_version ver date bid c
  = (Return tt,
     if String.eqb (Vendor.name v) "azure"
     then Check.info_set "version_azure" (spec_version_azure ty ver date)
            (Check.env_set "CLOUD_RELEASE_VERSION_AZURE"
               (spec_version_azure ty ver date) (versions_stored ty ver date bid c))
     else versions_stored ty ver date bid c).
Proof.
  intros Hty Hv. unfold Check.set_version, bind, modify, lift, Check.getattr.
  fields. rewrite Hty. fields. rewrite format_output_version. fields.
  rewrite Hty. fields. rewrite format_output_version_azure. fields.
  rewrite Hv. fields.
  destruct (String.eqb (Vendor.name v) "azure"); reflexivity.
Qed.

Lemma set_version_without_type (ver : Z) (date : datetime) (bid : BuildId.t)
    (c : Check.t) :
  Check.type c = None ->
  Check.set_version ver date bid c
  = (Raise (AttributeError "Check" "type"),
     Check.info_set "build_id" (BuildId.id bid)
       (Check.setattr_build_id (BuildId.id bid) c)).
Proof.
  intros Hty. unfold Check.set_version, bind, modify, lift, Check.getattr.
  fields. by rewrite Hty.
Qed.

Lemma set_version_without_vendor (ty : BuildTypeEnum.t) (ver : Z)
    (date : datetime) (bid : BuildId.t) (c : Check.t) :
  Check.type c = Some ty -> Check.vendor c = None ->
  Check.set_version ver date bid c
  = (Raise (AttributeError "Check" "vendor"), versions_stored ty ver date bid c).
Proof.
  intros Hty Hv. unfold Check.set_version, bind, modify, lift, Check.getattr.
  fields. rewrite Hty. fields. rewrite format_output_version. fields.
  rewrite Hty. fields. rewrite format_output_version_azure. fields.
  by rewrite Hv.
Qed.

Lemma check_run (r : Release.t) (v : Vendor.t) (a : Arch.t) (c : Check.t) :
  Check.release c = Some r -> Check.vendor c = Some v -> Check.arch c = Some a ->
  Check.check c
  = (Return tt,
     Check.with_classes (Classes.add "LAST")
       (Check.with_classes (Classes.add (variant_tag r v a)) c)).
Proof.
  intros Hr Hv Ha. unfold Check.check, bind, modify, ret, Check.getattr.
  rewrite Ha, Hr. unfold variant_tag, enhanced.
  destruct (bool_decide _); cbn [andb].
  - rewrite Hv. by destruct (Vendor.use_linux_image_cloud v).
  - reflexivity.
Qed.

End Methods.

(** ** The constructor's run of the resolver *)

Section Resolve.
Variable json_dumps : gmap string string -> string.
Variable data_path : string.

(** The calls of the constructor never fail on registry entries, and
    leave the object described by the [resolved_] definitions. *)
Lemma resolve_run (r : Release.t) (v : Vendor.t) (a : Arch.t) (ver : Z)
    (bid : BuildId.t) (ty : BuildTypeEnum.t) (localdebs : bool)
    (out : string) (override_name : option string) (date : datetime) :
  exists c,
    BuildCommand.resolve json_dumps data_path r v a ver bid ty localdebs out
      override_name date Check.__init__ = (Return tt, c) /\
    Classes.data (Check.classes c) = resolved_classes ty r v a localdebs /\
    Check.info c = resolved_info ty r v a ver date bid /\
    Check.env c
    = <["CLOUD_BUILD_DATA" := data_path]>
        (<["CLOUD_BUILD_OUTPUT_DIR" := out]>
           (<["CLOUD_BUILD_NAME" := resolved_name ty r v a ver date bid override_name]>
              (<["CLOUD_BUILD_INFO" := json_dumps (resolved_info ty r v a ver date bid)]>
                 (resolved_env ty v ver date)))) /\
    Check.version c = Some (spec_version ty ver date) /\
    Check.version_azure c = Some (spec_version_azure ty ver date) /\
    Check.build_id c = Some (BuildId.id bid).
Proof.
  unfold BuildCommand.resolve, bind.
  rewrite set_type_run, set_release_run, set_vendor_run, set_arch_run.
  erewrite (set_version_run ty v) by reflexivity.
  unfold resolved_info, resolved_env, resolved_classes, contributions.
  assert (Hname : forall c0 : Check.t,
    Check.type c0 = Some ty -> Check.release c0 = Some r ->
    Check.vendor c0 = Some v -> Check.arch c0 = Some a ->
    Check.version c0 = Some (spec_version ty ver date) ->
    Check.build_id c0 = Some (BuildId.id bid) ->
    BuildCommand.or_else override_name
      (bind (Check.getattr Check.type "type") (fun ty0 =>
       bind (Check.getattr Check.type "type") (fun ty' =>
       bind (Check.getattr Check.release "release") (fun r0 =>
       bind (Check.getattr Check.vendor "vendor") (fun v0 =>
       bind (Check.getattr Check.arch "arch") (fun a0 =>
       bind (Check.getattr Check.version "version") (fun ver0 =>
       bind (Check.getattr Check.build_id "build_id") (fun bid0 =>
       lift (format (BuildTypeEnum.output_name ty0)
               [("build_type", VStr (BuildTypeEnum.name ty'));
                ("release", VStr (Release.name r0));
                ("vendor", VStr (Vendor.name v0));
                ("arch", VStr (Arch.name a0));
                ("version", VStr ver0);
                ("build_id", VStr bid0)]))))))))) c0
    = (Return (resolved_name ty r v a ver date bid override_name), c0)).
  { intros c0 H1 H2 H3 H4 H5 H6.
    unfold BuildCommand.or_else, resolved_name.
    destruct override_name as [[|ch s]|]; try reflexivity;
      unfold bind, Check.getattr, lift;
      rewrite H1; cbv beta iota; rewrite H1; cbv beta iota;
      rewrite H2; cbv beta iota; rewrite H3; cbv beta iota;
      rewrite H4; cbv beta iota; rewrite H5; cbv beta iota;
      rewrite H6; cbv beta iota; rewrite format_output_name;
      by destruct ty. }
  destruct localdebs, (String.eqb (Vendor.name v) "azure") eqn:Hazure;
    unfold modify, ret, gets;
    (erewrite check_run by reflexivity);
    (erewrite Hname by reflexivity);
    (eexists; split; [reflexivity |]);
    unfold versions_stored; fields;
    repeat (rewrite ?ior_data; cbn [Classes.data Classes.add]);
    cbn [Check.__init__ Check.classes Check.env Check.info Classes.__init__
         Classes.data Classes.add app];
    rewrite <- ?app_assoc; cbn [app];
    repeat split; reflexivity.
Qed.

End Resolve.

(** ** What the expression of [BuildId] matches *)

Section Regex.

Lemma match_repeat_then_end (cs : charset) (b : bool) (s : string) :
  match_nodes [MAX_REPEAT_1 cs; AT_END] b s = repeat_then_end cs false s.
Proof. reflexivity. Qed.

Lemma repeat_then_end_spec (cs : charset) :
  in_charset cs newline = false ->
  forall (s : string) (taken : bool) (t : string),
    repeat_then_end cs taken s = Some t <->
    all_chars (in_charset cs) t = true /\
    (taken = true \/ t <> EmptyString) /\
    (s = t \/ s = t +:+ nl).
Proof.
  intros Hnl. induction s as [|c s IH]; intros taken t.
  - cbn. destruct taken; cbn; split.
    + intros [= <-]. auto.
    + intros (_ & _ & [<- | Hs]); [reflexivity |].
      destruct t; discriminate Hs.
    + discriminate.
    + intros (_ & [? | Ht] & [<- | Hs]); try discriminate; try done.
      destruct t; discriminate Hs.
  - cbn [repeat_then_end]. fold (repeat_then_end cs).
    destruct (in_charset cs c) eqn:Hc.
    + assert (Hstop : (if taken then match_nodes [AT_END] false (String c s) else None)
                      = None).
      { destruct taken; [| reflexivity]. cbn.
        destruct s; [| reflexivity].
        destruct (Ascii.eqb_spec c newline) as [-> | _]; [congruence | reflexivity]. }
      rewrite Hstop. specialize (IH true).
      destruct (repeat_then_end cs true s) as [r |] eqn:Hr;
        rewrite <- Hr in IH; split.
      * intros [= <-]. apply IH in Hr as (Hall & _ & Hs).
        cbn [all_chars]. rewrite Hc, Hall.
        split; [reflexivity |]. split; [by right |].
        destruct Hs as [-> | ->]; [by left | by right].
      * intros (Hall & _ & Hs).
        assert (exists t', t = String c t' /\ (s = t' \/ s = t' +:+ nl))
          as (t' & -> & Hs').
        { destruct t as [|c' t'].
          - destruct Hs as [Hs | Hs]; [discriminate Hs |].
            injection Hs as -> _. congruence.
          - exists t'. destruct Hs as [Hs | Hs]; injection Hs as -> ->; auto. }
        f_equal. f_equal.
        cbn [all_chars] in Hall. apply andb_true_iff in Hall as [_ Hall].
        assert (repeat_then_end cs true s = Some t') as Hr'
          by (apply IH; auto).
        congruence.
      * discriminate.
      * intros (Hall & _ & Hs).
        assert (exists t', t = String c t' /\ (s = t' \/ s = t' +:+ nl))
          as (t' & -> & Hs').
        { destruct t as [|c' t'].
          - destruct Hs as [Hs | Hs]; [discriminate Hs |].
            injection Hs as -> _. congruence.
          - exists t'. destruct Hs as [Hs | Hs]; injection Hs as -> ->; auto. }
        cbn [all_chars] in Hall. apply andb_true_iff in Hall as [_ Hall].
        assert (repeat_then_end cs true s = Some t') as Hr'
          by (apply IH; auto).
        congruence.
    + split.
      * destruct taken; [| discriminate]. cbn.
        destruct s; [| discriminate].
        destruct (Ascii.eqb_spec c newline) as [-> | _]; [| discriminate].
        intros [= <-]. split; [reflexivity |]. split; [by left | by right].
      * intros (Hall & Htaken & Hs).
        destruct t as [|c' t'].
        -- destruct Hs as [Hs | Hs]; [discriminate Hs |].
           injection Hs as -> ->.
           destruct Htaken as [-> | ?]; [| done].
           cbn. by rewrite Ascii.eqb_refl.
        -- cbn [all_chars] in Hall. apply andb_true_iff in Hall as [Hc' _].
           destruct Hs as [Hs | Hs]; injection Hs as -> _; congruence.
Qed.

Lemma in_lower_set (c : ascii) : in_charset [("a", "z")]%char c = is_lower c.
Proof. unfold in_charset, in_range, is_lower. cbn [existsb fst snd]. apply orb_false_r. Qed.

Lemma in_id_set (c : ascii) :
  in_charset [("a", "z"); ("0", "9"); ("-", "-")]%char c = is_id_char c.
Proof.
  unfold in_charset, in_range, is_id_char, is_lower, is_digit.
  cbn [existsb fst snd]. rewrite orb_false_r, orb_assoc. f_equal.
  destruct (Ascii.eqb_spec c "-") as [-> | Hne]; [reflexivity |].
  apply andb_false_iff.
  assert (N_of_ascii c <> N_of_ascii "-") as Hn.
  { intros Heq. apply Hne. by rewrite <- (ascii_N_embedding c), Heq. }
  rewrite !N.leb_gt. lia.
Qed.

Lemma all_chars_ext (p q : ascii -> bool) (s : string) :
  (forall c, p c = q c) -> all_chars p s = all_chars q s.
Proof. intros H. induction s as [|c s IH]; cbn; [reflexivity | by rewrite H, IH]. Qed.

(** The expression matches a string that fully matches, and such a
    string followed by one newline; [group(0)] is the string without
    that newline. *)
Lemma re_match_BuildId (s t : string) :
  re_match BuildId.re s = Some t <->
  fully_matches t = true /\ (s = t \/ s = t +:+ nl).
Proof.
  pose proof (repeat_then_end_spec
                [("a", "z"); ("0", "9"); ("-", "-")]%char eq_refl) as Hrep.
  set (ids := [("a", "z"); ("0", "9"); ("-", "-")]%char) in *.
  destruct s as [|c s].
  - change (re_match BuildId.re "") with (@None string).
    split; [discriminate |].
    intros (Hm & [<- | Hs]); [discriminate Hm |].
    destruct t; [discriminate Hm | discriminate Hs].
  - change (re_match BuildId.re (String c s))
      with (if in_charset [("a", "z")]%char c
            then String c <$> repeat_then_end ids false s else None).
    rewrite in_lower_set.
    destruct (is_lower c) eqn:Hc.
    + destruct (repeat_then_end ids false s) as [r |] eqn:Hr; cbn [fmap option_fmap option_map]; split.
      * intros [= <-]. apply Hrep in Hr as (Hall & [? | Hne] & Hs); [discriminate |].
        split.
        -- destruct r as [|c' r]; [done |]. cbn [fully_matches].
           rewrite Hc. rewrite <- (all_chars_ext _ _ _ in_id_set). exact Hall.
        -- destruct Hs as [-> | ->]; [by left | by right].
      * intros (Hm & Hs).
        destruct t as [|c0 [|c' t']]; try discriminate Hm.
        cbn [fully_matches] in Hm. apply andb_true_iff in Hm as [_ Hall].
        rewrite <- (all_chars_ext _ _ _ in_id_set) in Hall.
        assert (c0 = c /\ (s = String c' t' \/ s = String c' t' +:+ nl)) as [-> Hs'].
        { destruct Hs as [Hs | Hs]; injection Hs as -> ->; auto. }
        assert (repeat_then_end ids false s
                = Some (String c' t')) as Hr'
          by (apply Hrep; repeat split; [exact Hall | by right | exact Hs']).
        congruence.
      * discriminate.
      * intros (Hm & Hs).
        destruct t as [|c0 [|c' t']]; try discriminate Hm.
        cbn [fully_matches] in Hm. apply andb_true_iff in Hm as [_ Hall].
        rewrite <- (all_chars_ext _ _ _ in_id_set) in Hall.
        assert (c0 = c /\ (s = String c' t' \/ s = String c' t' +:+ nl)) as [-> Hs'].
        { destruct Hs as [Hs | Hs]; injection Hs as -> ->; auto. }
        assert (repeat_then_end ids false s
                = Some (String c' t')) as Hr'
          by (apply Hrep; repeat split; [exact Hall | by right | exact Hs']).
        congruence.
    + split; [discriminate |].
      intros (Hm & Hs).
      destruct t as [|c0 [|c' t']]; try discriminate Hm.
      cbn [fully_matches] in Hm. apply andb_true_iff in Hm as [Hc0 _].
      destruct Hs as [Hs | Hs]; injection Hs as -> _; congruence.
Qed.

End Regex.

(** ** Counting tags *)

Section Count.

Lemma count_app (tag : string) (l1 l2 : list string) :
  count tag (l1 ++ l2) = (count tag l1 + count tag l2)%nat.
Proof. unfold count. by rewrite filter_app, length_app. Qed.

Lemma count_cons (tag x : string) (l : list string) :
  count tag (x :: l) = ((if decide (x = tag) then 1 else 0) + count tag l)%nat.
Proof. unfold count. rewrite filter_cons. by destruct (decide (x = tag)). Qed.

Lemma count_nil (tag : string) : count tag [] = 0%nat.
Proof. reflexivity. Qed.

Lemma count_zero (tag : string) (l : list string) :
  count tag l = 0%nat <-> tag ∉ l.
Proof.
  induction l as [|x l IH].
  - split; [intros _; apply not_elem_of_nil | reflexivity].
  - rewrite count_cons, not_elem_of_cons.
    destruct (decide (x = tag)) as [-> | Hne]; split.
    + discriminate.
    + intros [? _]. done.
    + intros H. split; [congruence | by apply IH].
    + intros [_ H]. by apply IH.
Qed.

Lemma count_pos (tag : string) (l : list string) :
  (0 < count tag l)%nat <-> tag ∈ l.
Proof.
  destruct (decide (tag ∈ l)) as [Hin | Hnot].
  - split; [done |]. intros _.
    destruct (count tag l) eqn:Hc; [| lia].
    by apply count_zero in Hc.
  - apply count_zero in Hnot as Hc. rewrite Hc. split; [lia | done].
Qed.

Lemma no_variant_tags (l : list string) :
  existsb is_variant_tag l = false ->
  count "LINUX_IMAGE_CLOUD" l = 0%nat /\ count "LINUX_IMAGE_BASE" l = 0%nat.
Proof.
  induction l as [|x l IH]; [done |].
  cbn [existsb]. intros [Hx Hl]%orb_false_iff.
  destruct (IH Hl) as [IHc IHb].
  unfold is_variant_tag in Hx. apply orb_false_iff in Hx as [Hc%String.eqb_neq Hb%String.eqb_neq].
  rewrite !count_cons, IHc, IHb.
  by rewrite !decide_False by done.
Qed.

(** The tags the constructor adds by itself, the variant tag apart. *)
Lemma count_fixed_tags (tag : string) (ty : BuildTypeEnum.t) (localdebs : bool) :
  is_variant_tag tag = true ->
  count tag ["DEBIAN"; "CLOUD"] = 0%nat /\
  count tag (BuildTypeEnum.fai_classes ty) = 0%nat /\
  count tag (if localdebs then ["LOCALDEBS"] else []) = 0%nat /\
  count tag ["LAST"] = 0%nat.
Proof.
  unfold is_variant_tag.
  intros [->%String.eqb_eq | ->%String.eqb_eq]%orb_true_iff;
    destruct ty, localdebs; repeat split; reflexivity.
Qed.

End Count.

(** ** The class collection *)

(** C1, as the code has it: [add] appends the tag whether or not it is
    already there.  The collection grows by one, the tag is its new last
    element, and the tags that were there, an earlier occurrence of the
    same tag among them, stay where they were. *)
Theorem add_appends (v : string) (self : Classes.t) :
  Classes.data (Classes.add v self) = Classes.data self ++ [v] /\
  Classes.__len__ (Classes.add v self) = S (Classes.__len__ self) /\
  take (Classes.__len__ self) (Classes.data (Classes.add v self)) = Classes.data self /\
  count v (Classes.data (Classes.add v self)) = S (count v (Classes.data self)).
Proof.
  unfold Classes.add, Classes.__len__. cbn [Classes.data].
  split; [reflexivity |]. split; [| split].
  - rewrite length_app. cbn. lia.
  - by rewrite take_app_length.
  - rewrite count_app, count_cons, count_nil, decide_True by done. lia.
Qed.

(** C1 does not hold of the code: on the collection a new [Check] starts
    with, ["CLOUD"] is present, and adding it again gives a longer
    sequence with the tag twice. *)
Lemma add_present_tag_appends_again :
  Classes.__contains__ (Check.classes Check.__init__) "CLOUD" = true /\
  Classes.data (Check.classes Check.__init__) = ["DEBIAN"; "CLOUD"] /\
  Classes.data (Classes.add "CLOUD" (Check.classes Check.__init__))
  = ["DEBIAN"; "CLOUD"; "CLOUD"] /\
  Classes.data (Classes.add "CLOUD" (Check.classes Check.__init__))
  <> Classes.data (Check.classes Check.__init__).
Proof. repeat split; try reflexivity. discriminate. Qed.

(** ** The resolved class sequence *)

(** C2: whatever the build type and the registry entries, the calls of
    the constructor succeed, and the class sequence they leave starts with
    ["DEBIAN"], ["CLOUD"] and ends with a variant tag followed by
    ["LAST"]: one terminal marker ends the sequence, it is the last tag
    added, and the sequence holds it once more than the dimensions
    contributed it. *)
Theorem resolved_classes_shape
    (json_dumps : gmap string string -> string) (data_path : string)
    (r : Release.t) (v : Vendor.t) (a : Arch.t) (ver : Z) (bid : BuildId.t)
    (ty : BuildTypeEnum.t) (localdebs : bool) (out : string)
    (override_name : option string) (date : datetime) :
  exists (c : Check.t) (middle : list string),
    BuildCommand.resolve json_dumps data_path r v a ver bid ty localdebs out
      override_name date Check.__init__ = (Return tt, c) /\
    Classes.data (Check.classes c)
    = "DEBIAN" :: "CLOUD" :: middle ++ [variant_tag r v a; "LAST"] /\
    variant_tag r v a <> "LAST" /\
    last (Classes.data (Check.classes c)) = Some "LAST" /\
    count "LAST" (Classes.data (Check.classes c))
    = S (count "LAST" (contributions ty r v a)).
Proof.
  destruct (resolve_run json_dumps data_path r v a ver bid ty localdebs out
              override_name date) as (c & Hrun & Hcl & _).
  exists c, (contributions ty r v a ++ (if localdebs then ["LOCALDEBS"] else [])).
  assert (Hvar : variant_tag r v a <> "LAST")
    by (unfold variant_tag; destruct (enhanced r v a); discriminate).
  split; [exact Hrun |]. rewrite Hcl. unfold resolved_classes.
  split; [| split; [exact Hvar | split]].
  - cbn [app]. by rewrite <- app_assoc.
  - rewrite !app_assoc. change [variant_tag r v a; "LAST"] with ([variant_tag r v a] ++ ["LAST"]).
    rewrite app_assoc. apply last_snoc.
  - rewrite !count_app, !count_cons, !count_nil.
    destruct localdebs; rewrite ?count_cons, ?count_nil;
      repeat case_decide; try done; lia.
Qed.

(** C3, as the code has it: when the registry entries list no variant
    tag of their own, the resolved sequence holds exactly one of the two
    variant tags, and it is
    ["LINUX_IMAGE_CLOUD"] exactly when the architecture's name is among
    those the release supports the cloud image for and the vendor's flag
    is set. *)
Theorem one_variant_tag
    (json_dumps : gmap string string -> string) (data_path : string)
    (r : Release.t) (v : Vendor.t) (a : Arch.t) (ver : Z) (bid : BuildId.t)
    (ty : BuildTypeEnum.t) (localdebs : bool) (out : string)
    (override_name : option string) (date : datetime) :
  existsb is_variant_tag (registry_classes r v a) = false ->
  exists c : Check.t,
    BuildCommand.resolve json_dumps data_path r v a ver bid ty localdebs out
      override_name date Check.__init__ = (Return tt, c) /\
    count "LINUX_IMAGE_CLOUD" (Classes.data (Check.classes c))
    = (if enhanced r v a then 1 else 0)%nat /\
    count "LINUX_IMAGE_BASE" (Classes.data (Check.classes c))
    = (if enhanced r v a then 0 else 1)%nat /\
    ("LINUX_IMAGE_CLOUD" ∈ Classes.data (Check.classes c)
     <-> enhanced r v a = true) /\
    ("LINUX_IMAGE_BASE" ∈ Classes.data (Check.classes c)
     <-> enhanced r v a = false) /\
    enhanced r v a
    = bool_decide (Arch.name a ∈ Release.arch_supports_linux_image_cloud r)
      && Vendor.use_linux_image_cloud v.
Proof.
  intros Hreg.
  destruct (resolve_run json_dumps data_path r v a ver bid ty localdebs out
              override_name date) as (c & Hrun & Hcl & _).
  exists c. split; [exact Hrun |].
  apply no_variant_tags in Hreg as [Hc Hb]. unfold registry_classes in Hc, Hb.
  assert (Hcount :
    count "LINUX_IMAGE_CLOUD" (Classes.data (Check.classes c))
    = (if enhanced r v a then 1 else 0)%nat /\
    count "LINUX_IMAGE_BASE" (Classes.data (Check.classes c))
    = (if enhanced r v a then 0 else 1)%nat).
  { rewrite Hcl. unfold resolved_classes, contributions.
    change [variant_tag r v a; "LAST"] with ([variant_tag r v a] ++ ["LAST"]).
    rewrite !count_app. rewrite !count_app in Hc, Hb.
    destruct (count_fixed_tags "LINUX_IMAGE_CLOUD" ty localdebs eq_refl)
      as (-> & -> & -> & ->).
    destruct (count_fixed_tags "LINUX_IMAGE_BASE" ty localdebs eq_refl)
      as (-> & -> & -> & ->).
    unfold variant_tag. destruct (enhanced r v a);
      rewrite !count_cons, !count_nil;
      rewrite ?decide_True by reflexivity; rewrite ?decide_False by discriminate;
      rewrite Hc, Hb; split; reflexivity. }
  destruct Hcount as [Hcc Hcb].
  split; [exact Hcc |]. split; [exact Hcb |].
  split; [| split; [| reflexivity]].
  - rewrite <- count_pos, Hcc. destruct (enhanced r v a); split; (lia || done).
  - rewrite <- count_pos, Hcb. destruct (enhanced r v a); split; (lia || done).
Qed.

(** C3 on the sample registry: amd64 on bookworm for azure, whose flag is
    set, gets the cloud image tag and not the other. *)
Lemma one_variant_tag_sample :
  existsb is_variant_tag (registry_classes bookworm azure amd64) = false /\
  exists c : Check.t,
    BuildCommand.resolve sample_json_dumps "/data" bookworm azure amd64 42
      sample_build_id BuildTypeEnum.official false "/out" None sample_date
      Check.__init__ = (Return tt, c) /\
    count "LINUX_IMAGE_CLOUD" (Classes.data (Check.classes c)) = 1%nat /\
    count "LINUX_IMAGE_BASE" (Classes.data (Check.classes c)) = 0%nat.
Proof.
  split; [reflexivity |].
  destruct (one_variant_tag sample_json_dumps "/data" bookworm azure amd64 42
              sample_build_id BuildTypeEnum.official false "/out" None
              sample_date eq_refl) as (c & Hrun & Hc & Hb & _).
  exists c. split; [exact Hrun |]. split; [exact Hc | exact Hb].
Defined.

(** C3 does not hold of the code for every known combination: a release
    may list a variant tag among its own classes, and [check] adds its
    choice without looking at what is there.  For a release that lists
    ["LINUX_IMAGE_BASE"], with amd64 and azure, both variant tags are in
    the resolved sequence. *)
Lemma both_variant_tags_when_listed :
  enhanced bookworm_listing_base azure amd64 = true /\
  Classes.data
    (Check.classes
       (BuildCommand.resolve sample_json_dumps "/data" bookworm_listing_base
          azure amd64 42 sample_build_id BuildTypeEnum.official false "/out"
          None sample_date Check.__init__).2)
  = ["DEBIAN"; "CLOUD"; "BOOKWORM"; "LINUX_IMAGE_BASE"; "AZURE"; "AMD64";
     "GRUB_CLOUD"; "LINUX_IMAGE_CLOUD"; "LAST"] /\
  count "LINUX_IMAGE_CLOUD"
    (Classes.data
       (Check.classes
          (BuildCommand.resolve sample_json_dumps "/data" bookworm_listing_base
             azure amd64 42 sample_build_id BuildTypeEnum.official false "/out"
             None sample_date Check.__init__).2)) = 1%nat /\
  count "LINUX_IMAGE_BASE"
    (Classes.data
       (Check.classes
          (BuildCommand.resolve sample_json_dumps "/data" bookworm_listing_base
             azure amd64 42 sample_build_id BuildTypeEnum.official false "/out"
             None sample_date Check.__init__).2)) = 1%nat.
Proof. repeat split; vm_compute; reflexivity. Qed.

(** ** The build identifier *)

Section BuildIdFacts.

Lemma ends_with_newline_append (t : string) : ends_with_newline (t +:+ nl) = true.
Proof.
  induction t as [|c t IH]; [reflexivity |].
  append_step. cbn [ends_with_newline].
  destruct (t +:+ nl) eqn:Ht; [destruct t; discriminate Ht | exact IH].
Qed.

Lemma all_id_chars_no_newline (s : string) :
  all_chars is_id_char s = true -> s <> EmptyString -> ends_with_newline s = false.
Proof.
  induction s as [|c s IH]; [done |].
  cbn [all_chars]. intros [Hc Hs]%andb_true_iff _.
  cbn [ends_with_newline]. destruct s as [|c' s'].
  - destruct (Ascii.eqb_spec c newline) as [-> | _]; [discriminate Hc | reflexivity].
  - by apply IH.
Qed.

Lemma fully_matches_no_newline (s : string) :
  fully_matches s = true -> ends_with_newline s = false.
Proof.
  destruct s as [|c [|c' s']]; try discriminate.
  cbn [fully_matches]. intros [_ Hall]%andb_true_iff.
  change (ends_with_newline (String c (String c' s')))
    with (ends_with_newline (String c' s')).
  by apply all_id_chars_no_newline.
Qed.

Lemma BuildId_init_returns (s : string) (b : BuildId.t) :
  BuildId.__init__ s = Return b <->
  fully_matches (BuildId.id b) = true /\
  (s = BuildId.id b \/ s = BuildId.id b +:+ nl).
Proof.
  unfold BuildId.__init__. destruct b as [t]. cbn [BuildId.id].
  rewrite <- re_match_BuildId.
  destruct (re_match BuildId.re s) as [g |]; split; congruence.
Qed.

Lemma BuildId_init_raises (s : string) (e : exn) :
  BuildId.__init__ s = Raise e -> e = ValueError "invalid build id value".
Proof.
  unfold BuildId.__init__. destruct (re_match BuildId.re s); congruence.
Qed.

End BuildIdFacts.

(** C4, as the code has it: on input that does not end in a newline the
    identifier is accepted exactly when it fully matches the pattern, and
    is then stored as given; a rejected input raises [ValueError] with one
    fixed message, which does not quote the input. *)
Theorem build_id_validation (raw : string) :
  ends_with_newline raw = false ->
  BuildId.__init__ raw
  = if fully_matches raw
    then Return {| BuildId.id := raw |}
    else Raise (ValueError "invalid build id value").
Proof.
  intros Hnl. destruct (fully_matches raw) eqn:Hm.
  - apply BuildId_init_returns. cbn [BuildId.id]. auto.
  - destruct (BuildId.__init__ raw) as [b | e] eqn:Hinit.
    + apply BuildId_init_returns in Hinit as (Hb & [-> | ->]).
      * congruence.
      * by rewrite ends_with_newline_append in Hnl.
    + f_equal. by apply BuildId_init_raises in Hinit.
Qed.

(** C4 on the inputs the specification names: ["test-1"] is accepted,
    ["1abc"] and ["AB"] are rejected. *)
Lemma build_id_validation_examples :
  BuildId.__init__ "test-1" = Return {| BuildId.id := "test-1" |} /\
  BuildId.__init__ "1abc" = Raise (ValueError "invalid build id value") /\
  BuildId.__init__ "AB" = Raise (ValueError "invalid build id value").
Proof.
  split; [| split].
  - exact (build_id_validation "test-1" eq_refl).
  - exact (build_id_validation "1abc" eq_refl).
  - exact (build_id_validation "AB" eq_refl).
Defined.

(** C4 does not hold of the code as stated: the message raised for
    ["1abc"] does not cite that value, and ["ab"] followed by a newline is
    accepted although it does not fully match. *)
Lemma build_id_validation_fails_as_stated :
  BuildId.__init__ "1abc" = Raise (ValueError "invalid build id value") /\
  cites "invalid build id value" "1abc" = false /\
  fully_matches ("ab" +:+ nl) = false /\
  returned (BuildId.__init__ ("ab" +:+ nl)) = true.
Proof. repeat split; reflexivity. Qed.

(** C10: a string that fully matches is also accepted with one newline
    after it, which does not fully match; the identifier stored is the
    string without the newline, and so differs from the input. *)
Theorem build_id_trailing_newline (s : string) :
  fully_matches s = true ->
  BuildId.__init__ (s +:+ nl) = Return {| BuildId.id := s |} /\
  fully_matches (s +:+ nl) = false /\
  s <> s +:+ nl.
Proof.
  intros Hm. split; [| split].
  - apply BuildId_init_returns. cbn [BuildId.id]. auto.
  - destruct (fully_matches (s +:+ nl)) eqn:Hm'; [| reflexivity].
    apply fully_matches_no_newline in Hm'.
    by rewrite ends_with_newline_append in Hm'.
  - intros Heq. apply fully_matches_no_newline in Hm.
    rewrite Heq, ends_with_newline_append in Hm. discriminate Hm.
Qed.

(** C10 on ["ab"]: with a newline after it the input is accepted and
    ["ab"] is stored. *)
Lemma build_id_trailing_newline_sample :
  fully_matches "ab" = true /\
  BuildId.__init__ ("ab" +:+ nl) = Return {| BuildId.id := "ab" |} /\
  fully_matches ("ab" +:+ nl) = false /\
  "ab" <> "ab" +:+ nl.
Proof. split; [reflexivity | exact (build_id_trailing_newline "ab" eq_refl)]. Defined.

(** ** The version strings *)

(** C5, as the code has it: on an object with a build type and a vendor,
    [set_version] with a non-negative version number and a date from the
    year 1000 on succeeds.  For [dev] the version is the decimal rendering
    of the number, without leading zeros, and the Azure version is [0.0.]
    followed by it; for [official] the version is the eight digits of the
    date, a hyphen and the number, and the Azure version is [0.], the
    eight digits, a dot and the number. *)
Theorem set_version_strings (ty : BuildTypeEnum.t) (v : Vendor.t) (ver : Z)
    (date : datetime) (bid : BuildId.t) (c : Check.t) :
  0 <= ver -> datetime_ok date = true -> 1000 <= year date ->
  Check.type c = Some ty -> Check.vendor c = Some v ->
  exists c' : Check.t,
    Check.set_version ver date bid c = (Return tt, c') /\
    Check.version c'
    = Some (match ty with
            | BuildTypeEnum.dev => pretty ver
            | BuildTypeEnum.official => strftime_Ymd date +:+ "-" +:+ pretty ver
            end) /\
    Check.version_azure c'
    = Some (match ty with
            | BuildTypeEnum.dev => "0.0." +:+ pretty ver
            | BuildTypeEnum.official =>
                "0." +:+ strftime_Ymd date +:+ "." +:+ pretty ver
            end) /\
    decimal_rendering ver (pretty ver) /\
    String.length (strftime_Ymd date) = 8%nat /\
    all_chars is_digit (strftime_Ymd date) = true /\
    decimal_value (strftime_Ymd date)
    = year date * 10000 + month date * 100 + day date.
Proof.
  intros Hver Hdate Hyear Hty Hv.
  eexists. split; [apply (set_version_run ty v); assumption |].
  split; [| split; [| split; [by apply pretty_Z_decimal | by apply strftime_Ymd_spec]]].
  - destruct (String.eqb (Vendor.name v) "azure"); reflexivity.
  - destruct (String.eqb (Vendor.name v) "azure"); reflexivity.
Qed.

(** C5 on version 42 of 2024-05-01, for both build types. *)
Lemma set_version_strings_sample :
  (0 <= 42 /\ datetime_ok sample_date = true /\ 1000 <= year sample_date) /\
  (exists c' : Check.t,
     Check.set_version 42 sample_date sample_build_id
       (Check.setattr_vendor azure
          (Check.setattr_type BuildTypeEnum.official Check.__init__))
     = (Return tt, c') /\
     Check.version c' = Some "20240501-42" /\
     Check.version_azure c' = Some "0.20240501.42") /\
  (exists c' : Check.t,
     Check.set_version 42 sample_date sample_build_id
       (Check.setattr_vendor nocloud
          (Check.setattr_type BuildTypeEnum.dev Check.__init__))
     = (Return tt, c') /\
     Check.version c' = Some "42" /\
     Check.version_azure c' = Some "0.0.42").
Proof.
  assert (H42 : 0 <= 42) by lia.
  assert (Hyear : 1000 <= year sample_date) by (cbn; lia).
  split; [split; [exact H42 | split; [reflexivity | exact Hyear]] |]. split.
  - destruct (set_version_strings BuildTypeEnum.official azure 42 sample_date
                sample_build_id
                (Check.setattr_vendor azure
                   (Check.setattr_type BuildTypeEnum.official Check.__init__))
                H42 eq_refl Hyear eq_refl eq_refl) as (c' & Hrun & Hv & Ha & _).
    vm_compute in Hv, Ha.
    exists c'. split; [exact Hrun |]. split; [exact Hv | exact Ha].
  - destruct (set_version_strings BuildTypeEnum.dev nocloud 42 sample_date
                sample_build_id
                (Check.setattr_vendor nocloud
                   (Check.setattr_type BuildTypeEnum.dev Check.__init__))
                H42 eq_refl Hyear eq_refl eq_refl) as (c' & Hrun & Hv & Ha & _).
    vm_compute in Hv, Ha.
    exists c'. split; [exact Hrun |]. split; [exact Hv | exact Ha].
Defined.

(** C5 does not hold of the code for every date: for 0999-01-02, which is
    a date a [datetime] can hold, the year is written with three digits,
    and the [official] version of build 42 is ["9990102-42"], with seven
    digits before the hyphen. *)
Lemma set_version_early_year_has_seven_digits :
  datetime_ok early_date = true /\
  Check.version
    (Check.set_version 42 early_date sample_build_id
       (dimensions_applied BuildTypeEnum.official bookworm azure amd64)).2
  = Some "9990102-42" /\
  Check.version_azure
    (Check.set_version 42 early_date sample_build_id
       (dimensions_applied BuildTypeEnum.official bookworm azure amd64)).2
  = Some "0.9990102.42" /\
  strftime_Ymd early_date = "9990102" /\
  String.length (strftime_Ymd early_date) = 7%nat.
Proof. repeat split; vm_compute; reflexivity. Qed.

(** ** The Azure version in the two mappings *)

(** On an object whose mappings do not yet hold the Azure version,
    [set_version] stores it in both when the vendor's name is [azure], and
    in neither otherwise. *)
Lemma set_version_azure_entries (ty : BuildTypeEnum.t) (v : Vendor.t) (ver : Z)
    (date : datetime) (bid : BuildId.t) (c : Check.t) :
  Check.type c = Some ty -> Check.vendor c = Some v ->
  Check.env c !! "CLOUD_RELEASE_VERSION_AZURE" = None ->
  Check.info c !! "version_azure" = None ->
  exists c' : Check.t,
    Check.set_version ver date bid c = (Return tt, c') /\
    Check.version_azure c' = Some (spec_version_azure ty ver date) /\
    Check.env c' !! "CLOUD_RELEASE_VERSION_AZURE"
    = (if decide (Vendor.name v = "azure")
       then Some (spec_version_azure ty ver date) else None) /\
    Check.info c' !! "version_azure"
    = (if decide (Vendor.name v = "azure")
       then Some (spec_version_azure ty ver date) else None).
Proof.
  intros Hty Hv Henv Hinfo.
  eexists. split; [apply (set_version_run ty v); assumption |].
  destruct (String.eqb_spec (Vendor.name v) "azure") as [Heq | Hne].
  - rewrite !decide_True by exact Heq. unfold versions_stored. fields.
    split; [reflexivity |]. split; apply lookup_insert_eq.
  - rewrite !decide_False by exact Hne. unfold versions_stored. fields.
    split; [reflexivity |].
    split; rewrite !lookup_insert_ne by done; assumption.
Qed.

(** The four dimension setters leave the type and the vendor on the
    object and no Azure version in its mappings. *)
Lemma dimensions_applied_attrs (ty : BuildTypeEnum.t) (r : Release.t)
    (v : Vendor.t) (a : Arch.t) :
  Check.type (dimensions_applied ty r v a) = Some ty /\
  Check.vendor (dimensions_applied ty r v a) = Some v /\
  Check.env (dimensions_applied ty r v a) !! "CLOUD_RELEASE_VERSION_AZURE" = None /\
  Check.info (dimensions_applied ty r v a) !! "version_azure" = None.
Proof.
  unfold dimensions_applied, bind.
  rewrite set_type_run, set_release_run, set_vendor_run, set_arch_run.
  cbn [snd]. fields. cbn [Check.__init__ Check.env Check.info].
  split; [reflexivity |]. split; [reflexivity |].
  split; rewrite !lookup_insert_ne by done; apply lookup_empty.
Qed.

(** C6: after the dimension setters and [set_version], called on a new
    [Check] in the constructor's order, the Azure version is stored under
    [CLOUD_RELEASE_VERSION_AZURE] in the environment and under
    [version_azure] in the metadata when the vendor's name is [azure]; for
    every other vendor neither mapping holds the entry. *)
Theorem azure_version_stored (ty : BuildTypeEnum.t) (r : Release.t)
    (v : Vendor.t) (a : Arch.t) (ver : Z) (date : datetime) (bid : BuildId.t) :
  exists c' : Check.t,
    Check.set_version ver date bid (dimensions_applied ty r v a) = (Return tt, c') /\
    Check.version_azure c' = Some (spec_version_azure ty ver date) /\
    Check.env c' !! "CLOUD_RELEASE_VERSION_AZURE"
    = (if decide (Vendor.name v = "azure")
       then Some (spec_version_azure ty ver date) else None) /\
    Check.info c' !! "version_azure"
    = (if decide (Vendor.name v = "azure")
       then Some (spec_version_azure ty ver date) else None).
Proof.
  destruct (dimensions_applied_attrs ty r v a) as (Hty & Hv & Henv & Hinfo).
  by apply set_version_azure_entries.
Qed.

(** C6 on the sample registry: for [azure] both mappings hold the Azure
    version, for [nocloud] neither does. *)
Lemma azure_version_stored_sample :
  (exists c' : Check.t,
     Check.set_version 42 sample_date sample_build_id
       (dimensions_applied BuildTypeEnum.official bookworm azure amd64)
     = (Return tt, c') /\
     Check.env c' !! "CLOUD_RELEASE_VERSION_AZURE" = Some "0.20240501.42" /\
     Check.info c' !! "version_azure" = Some "0.20240501.42") /\
  (exists c' : Check.t,
     Check.set_version 42 sample_date sample_build_id
       (dimensions_applied BuildTypeEnum.official bookworm nocloud amd64)
     = (Return tt, c') /\
     Check.env c' !! "CLOUD_RELEASE_VERSION_AZURE" = None /\
     Check.info c' !! "version_azure" = None).
Proof.
  split.
  - destruct (azure_version_stored BuildTypeEnum.official bookworm azure amd64
                42 sample_date sample_build_id) as (c' & Hrun & _ & He & Hi).
    vm_compute in He, Hi.
    exists c'. split; [exact Hrun |]. split; [exact He | exact Hi].
  - destruct (azure_version_stored BuildTypeEnum.official bookworm nocloud amd64
                42 sample_date sample_build_id) as (c' & Hrun & _ & He & Hi).
    vm_compute in He, Hi.
    exists c'. split; [exact Hrun |]. split; [exact He | exact Hi].
Defined.

(** ** The order of the calls *)

(** C7, as the code has it: no method of [Check] looks at what was
    applied before.  The four dimension setters succeed on every object;
    [set_version] fails only when no type or no vendor has been applied,
    and [check] only when the architecture, the release or, for a
    supported architecture, the vendor is missing, each time with the
    [AttributeError] of the attribute read. *)
Theorem setters_keep_no_order (ty : BuildTypeEnum.t) (r : Release.t)
    (v : Vendor.t) (a : Arch.t) (ver : Z) (date : datetime) (bid : BuildId.t)
    (c : Check.t) :
  (Check.set_type ty c).1 = Return tt /\
  (Check.set_release r c).1 = Return tt /\
  (Check.set_vendor v c).1 = Return tt /\
  (Check.set_arch a c).1 = Return tt /\
  (Check.set_version ver date bid c).1
  = match Check.type c, Check.vendor c with
    | None, _ => Raise (AttributeError "Check" "type")
    | Some _, None => Raise (AttributeError "Check" "vendor")
    | Some _, Some _ => Return tt
    end /\
  (Check.check c).1
  = match Check.arch c, Check.release c with
    | None, _ => Raise (AttributeError "Check" "arch")
    | Some _, None => Raise (AttributeError "Check" "release")
    | Some a', Some r' =>
        if bool_decide (Arch.name a' ∈ Release.arch_supports_linux_image_cloud r')
        then match Check.vendor c with
             | Some _ => Return tt
             | None => Raise (AttributeError "Check" "vendor")
             end
        else Return tt
    end.
Proof.
  repeat split; try reflexivity.
  - destruct (Check.type c) as [ty' |] eqn:Hty.
    + destruct (Check.vendor c) as [v' |] eqn:Hv.
      * by rewrite (set_version_run ty' v').
      * by rewrite (set_version_without_vendor ty').
    + by rewrite set_version_without_type.
  - unfold Check.check, bind, modify, ret, Check.getattr.
    destruct (Check.arch c) as [a' |]; [| reflexivity].
    destruct (Check.release c) as [r' |]; [| reflexivity].
    destruct (bool_decide _); [| reflexivity].
    destruct (Check.vendor c) as [v' |]; [| reflexivity].
    by destruct (Vendor.use_linux_image_cloud v').
Qed.

(** C7 does not hold of the code: on a new [Check], to which no type has
    been applied, [set_release], [set_vendor] and [set_arch] succeed, and
    a second [set_type] succeeds after the first. *)
Lemma setters_succeed_out_of_order :
  Check.type Check.__init__ = None /\
  (Check.set_release bookworm Check.__init__).1 = Return tt /\
  (Check.set_vendor azure Check.__init__).1 = Return tt /\
  (Check.set_arch amd64 Check.__init__).1 = Return tt /\
  ((Check.set_type BuildTypeEnum.dev ;;; Check.set_type BuildTypeEnum.official)
     Check.__init__).1 = Return tt.
Proof. repeat split; reflexivity. Qed.

(** ** The constructor *)

Section Constructor.
Variable json_dumps : gmap string string -> string.
Variable data_path : string.

Lemma init_run (config : BuildCommand.config_image)
    (release_name vendor_name arch_name : string) (r : Release.t)
    (v : Vendor.t) (a : Arch.t) (ver : Z) (bid : BuildId.t)
    (ty : BuildTypeEnum.t) (localdebs : bool) (out : string) (noop : bool)
    (override_name : option string) (date : datetime) :
  BuildCommand.get (BuildCommand.releases config) release_name = Some r ->
  BuildCommand.get (BuildCommand.vendors config) vendor_name = Some v ->
  BuildCommand.get (BuildCommand.archs config) arch_name = Some a ->
  exists c : Check.t,
    BuildCommand.__init__ json_dumps data_path config release_name vendor_name
      arch_name ver bid ty localdebs out noop override_name date
    = Return {| BuildCommand.noop := noop; BuildCommand.c := c |} /\
    BuildCommand.resolve json_dumps data_path r v a ver bid ty localdebs out
      override_name date Check.__init__ = (Return tt, c) /\
    Classes.data (Check.classes c) = resolved_classes ty r v a localdebs /\
    Check.env c !! "CLOUD_BUILD_NAME"
    = Some (resolved_name ty r v a ver date bid override_name) /\
    Check.version c = Some (spec_version ty ver date) /\
    Check.version_azure c = Some (spec_version_azure ty ver date).
Proof.
  intros Hr Hv Ha.
  destruct (resolve_run json_dumps data_path r v a ver bid ty localdebs out
              override_name date) as (c & Hrun & Hcl & _ & Henv & Hver & Haz & _).
  exists c. unfold BuildCommand.__init__. rewrite Hr, Hv, Ha, Hrun.
  split; [reflexivity |]. split; [reflexivity |]. split; [exact Hcl |].
  split; [| split; [exact Hver | exact Haz]].
  rewrite Henv. rewrite !lookup_insert_ne by done. apply lookup_insert_eq.
Qed.

End Constructor.

(** ** The official bookworm image for Azure on amd64 *)



(** ** The override name *)

(** C9, as the code has it: an override name that is not the empty
    string is the output name as it stands, and the template of the build
    type is not evaluated, whatever it would give; with no override name,
    or an empty one, the name is the one the template gives. *)
Theorem override_name_verbatim
    (json_dumps : gmap string string -> string) (data_path : string)
    (config : BuildCommand.config_image)
    (release_name vendor_name arch_name : string) (r : Release.t)
    (v : Vendor.t) (a : Arch.t) (ver : Z) (bid : BuildId.t)
    (ty : BuildTypeEnum.t) (localdebs : bool) (out : string) (noop : bool)
    (date : datetime) (name : string) :
  name <> EmptyString ->
  BuildCommand.get (BuildCommand.releases config) release_name = Some r ->
  BuildCommand.get (BuildCommand.vendors config) vendor_name = Some v ->
  BuildCommand.get (BuildCommand.archs config) arch_name = Some a ->
  build_name
    (BuildCommand.__init__ json_dumps data_path config release_name vendor_name
       arch_name ver bid ty localdebs out noop (Some name) date)
  = Some name /\
  (forall (S : Type) (template : M S string),
     BuildCommand.or_else (Some name) template = ret name) /\
  build_name
    (BuildCommand.__init__ json_dumps data_path config release_name vendor_name
       arch_name ver bid ty localdebs out noop None date)
  = Some (spec_name ty (Release.name r) (Vendor.name v) (Arch.name a)
            (spec_version ty ver date) (BuildId.id bid)) /\
  build_name
    (BuildCommand.__init__ json_dumps data_path config release_name vendor_name
       arch_name ver bid ty localdebs out noop (Some EmptyString) date)
  = Some (spec_name ty (Release.name r) (Vendor.name v) (Arch.name a)
            (spec_version ty ver date) (BuildId.id bid)).
Proof.
  intros Hname Hr Hv Ha.
  assert (Hrun : forall o : option string,
    build_name
      (BuildCommand.__init__ json_dumps data_path config release_name vendor_name
         arch_name ver bid ty localdebs out noop o date)
    = Some (resolved_name ty r v a ver date bid o)).
  { intros o.
    destruct (init_run json_dumps data_path config release_name vendor_name
                arch_name r v a ver bid ty localdebs out noop o date Hr Hv Ha)
      as (c & -> & _ & _ & Hn & _).
    exact Hn. }
  destruct name as [|ch s]; [done |].
  split; [apply Hrun |]. split; [reflexivity |].
  split; apply Hrun.
Qed.

(** C9 on the sample registry: the override name ["my-image"] is the
    output name. *)
Lemma override_name_verbatim_sample :
  "my-image" <> EmptyString /\
  build_name
    (BuildCommand.__init__ sample_json_dumps "/data" sample_config "bookworm"
       "azure" "amd64" 42 sample_build_id BuildTypeEnum.official false "/out"
       false (Some "my-image") sample_date)
  = Some "my-image".
Proof.
  assert (Hne : "my-image" <> EmptyString) by discriminate.
  split; [exact Hne |].
  exact (proj1 (override_name_verbatim sample_json_dumps "/data" sample_config
                  "bookworm" "azure" "amd64" bookworm azure amd64 42
                  sample_build_id BuildTypeEnum.official false "/out" false
                  sample_date "my-image" Hne eq_refl eq_refl eq_refl)).
Defined.

(** C9 does not hold of the code for the empty string: supplied as the
    override name, it is not the output name; the template is used. *)
Lemma empty_override_name_is_replaced :
  build_name
    (BuildCommand.__init__ sample_json_dumps "/data" sample_config "bookworm"
       "azure" "amd64" 42 sample_build_id BuildTypeEnum.official false "/out"
       false (Some EmptyString) sample_date)
  = Some "debian-bookworm-azure-amd64-official-20240501-42" /\
  build_name
    (BuildCommand.__init__ sample_json_dumps "/data" sample_config "bookworm"
       "azure" "amd64" 42 sample_build_id BuildTypeEnum.official false "/out"
       false (Some EmptyString) sample_date)
  <> Some EmptyString.
Proof. split; [vm_compute; reflexivity | vm_compute; discriminate]. Qed.

(** * Further properties of the code *)

(** ** [Classes]: removal and bulk addition *)

Lemma list_remove_spec (v : string) (l : list string) :
  match Classes.list_remove v l with
  | Some l' => exists l1 l2, l = l1 ++ v :: l2 /\ (v ∉ l1) /\ l' = l1 ++ l2
  | None => v ∉ l
  end.
Proof.
  induction l as [|x l IH]; cbn [Classes.list_remove].
  - apply not_elem_of_nil.
  - destruct (String.eqb_spec x v) as [-> | Hne].
    + exists [], l. repeat split. apply not_elem_of_nil.
    + destruct (Classes.list_remove v l) as [l' |]; cbn.
      * destruct IH as (l1 & l2 & -> & Hnot & ->).
        exists (x :: l1), l2. repeat split.
        apply not_elem_of_cons. split; [congruence | exact Hnot].
      * apply not_elem_of_cons. split; [congruence | exact IH].
Qed.

(** X1: [discard] succeeds exactly on a tag that is there, and then takes
    out its first occurrence and nothing else; on a tag that is not there
    it raises the [ValueError] of [list.remove] and does not return. *)
Theorem discard_removes_first_occurrence (v : string) (self : Classes.t) :
  match Classes.discard v self with
  | Return self' =>
      exists l1 l2,
        Classes.data self = l1 ++ v :: l2 /\ (v ∉ l1) /\
        Classes.data self' = l1 ++ l2 /\
        Classes.__len__ self = S (Classes.__len__ self')
  | Raise e =>
      Classes.__contains__ self v = false /\
      e = ValueError "list.remove(x): x not in list"
  end.
Proof.
  unfold Classes.discard, Classes.__contains__, Classes.__len__.
  pose proof (list_remove_spec v (Classes.data self)) as H.
  destruct (Classes.list_remove v (Classes.data self)) as [l' |].
  - destruct H as (l1 & l2 & Hl & Hnot & ->).
    exists l1, l2. cbn [Classes.data]. repeat split; try assumption.
    rewrite Hl, !length_app. cbn. lia.
  - split; [by apply bool_decide_eq_false_2 | reflexivity].
Qed.

(** X2: removing a tag right after adding it gives the collection back,
    when the tag was not there before. *)
Theorem discard_undoes_add (v : string) (self : Classes.t) :
  Classes.__contains__ self v = false ->
  Classes.discard v (Classes.add v self) = Return self.
Proof.
  unfold Classes.__contains__. intros Hnot%bool_decide_eq_false_1.
  destruct self as [l]. unfold Classes.discard, Classes.add. cbn [Classes.data] in *.
  assert (Classes.list_remove v (l ++ [v]) = Some l) as ->; [| reflexivity].
  induction l as [|x l IH]; cbn [app Classes.list_remove].
  - by rewrite String.eqb_refl.
  - apply not_elem_of_cons in Hnot as [Hne Hnot].
    destruct (String.eqb_spec x v) as [-> | _]; [done |].
    by rewrite IH.
Qed.

(** X2 on a new [Check]: ["LAST"] added to its classes and removed again. *)
Lemma discard_undoes_add_sample :
  Classes.__contains__ (Check.classes Check.__init__) "LAST" = false /\
  Classes.discard "LAST" (Classes.add "LAST" (Check.classes Check.__init__))
  = Return (Check.classes Check.__init__).
Proof.
  split; [reflexivity |].
  exact (discard_undoes_add "LAST" (Check.classes Check.__init__) eq_refl).
Defined.

(** X3: when the tag was there already, removing it after adding it is
    not an undo: the earlier occurrence goes and the added one stays at
    the end. *)
Theorem discard_after_add_of_present (v : string) (self : Classes.t) :
  Classes.__contains__ self v = true ->
  exists (self' : Classes.t) (l1 l2 : list string),
    Classes.discard v (Classes.add v self) = Return self' /\
    Classes.data self = l1 ++ v :: l2 /\ (v ∉ l1) /\
    Classes.data self' = l1 ++ l2 ++ [v].
Proof.
  unfold Classes.__contains__. intros Hin%bool_decide_eq_true_1.
  pose proof (discard_removes_first_occurrence v self) as Hself.
  destruct (Classes.discard v self) as [s1 | e] eqn:Hd.
  - destruct Hself as (l1 & l2 & Hl & Hnot & _).
    unfold Classes.discard, Classes.add. cbn [Classes.data].
    rewrite Hl, <- app_assoc. cbn [app].
    pose proof (list_remove_spec v (l1 ++ v :: l2 ++ [v])) as H.
    destruct (Classes.list_remove v (l1 ++ v :: l2 ++ [v])) as [l' |].
    + destruct H as (k1 & k2 & Hk & Hk1 & ->).
      assert (k1 = l1 /\ k2 = l2 ++ [v]) as [-> ->].
      { clear - Hk Hk1 Hnot. revert k1 Hk Hk1.
        induction l1 as [|x l1 IH]; intros [|y k1] Hk Hk1; cbn in Hk.
        - injection Hk as ->. done.
        - injection Hk as <- _. apply not_elem_of_cons in Hk1 as [? _]. done.
        - injection Hk as -> _. apply not_elem_of_cons in Hnot as [? _]. done.
        - injection Hk as <- Hk.
          apply not_elem_of_cons in Hnot as [_ Hnot].
          apply not_elem_of_cons in Hk1 as [_ Hk1].
          destruct (IH Hnot k1 Hk Hk1) as [-> ->]. done. }
      eexists _, l1, l2. repeat split. exact Hnot.
    + exfalso. apply H. rewrite elem_of_app, elem_of_cons. auto.
  - destruct Hself as [Hc _]. unfold Classes.__contains__ in Hc.
    apply bool_decide_eq_false_1 in Hc. done.
Qed.

(** X3 on a new [Check]: ["DEBIAN"] added again and removed once leaves
    it after ["CLOUD"]. *)
Lemma discard_after_add_of_present_sample :
  Classes.__contains__ (Check.classes Check.__init__) "DEBIAN" = true /\
  exists self' : Classes.t,
    Classes.discard "DEBIAN" (Classes.add "DEBIAN" (Check.classes Check.__init__))
    = Return self' /\
    Classes.data self' = ["CLOUD"; "DEBIAN"].
Proof.
  split; [reflexivity |].
  destruct (discard_after_add_of_present "DEBIAN" (Check.classes Check.__init__)
              eq_refl) as (self' & l1 & l2 & Hd & _).
  exists self'. split; [exact Hd |].
  vm_compute in Hd. injection Hd as <-. reflexivity.
Defined.

(** X4: [|=] adds the values of the iterable at the end, in its order,
    however many are there already; two bulk additions in a row are one
    bulk addition of the two iterables joined. *)
Theorem ior_appends_in_order (it1 it2 : list string) (self : Classes.t) :
  Classes.data (Classes.__ior__ it1 self) = Classes.data self ++ it1 /\
  Classes.__len__ (Classes.__ior__ it1 self)
  = (Classes.__len__ self + length it1)%nat /\
  (forall v, Classes.__contains__ (Classes.__ior__ it1 self) v
             = Classes.__contains__ self v || bool_decide (v ∈ it1)) /\
  Classes.__ior__ it2 (Classes.__ior__ it1 self) = Classes.__ior__ (it1 ++ it2) self.
Proof.
  split; [apply ior_data |]. split; [| split].
  - unfold Classes.__len__. by rewrite ior_data, length_app.
  - intros v. unfold Classes.__contains__. rewrite ior_data.
    destruct (decide (v ∈ Classes.data self)) as [H1 | H1],
             (decide (v ∈ it1)) as [H2 | H2].
    + rewrite !bool_decide_eq_true_2; [done | done | done |].
      apply elem_of_app; auto.
    + rewrite (bool_decide_eq_true_2 (v ∈ Classes.data self)) by done.
      rewrite bool_decide_eq_true_2; [done |]. apply elem_of_app; auto.
    + rewrite (bool_decide_eq_false_2 (v ∈ Classes.data self)) by done.
      rewrite !bool_decide_eq_true_2; [done | done |]. apply elem_of_app; auto.
    + rewrite !bool_decide_eq_false_2; [done | done | done |].
      rewrite elem_of_app. tauto.
  - unfold Classes.__ior__. by rewrite foldl_app.
Qed.

(** ** [Check]: what [check] and a failing [set_version] leave behind *)

(** X5: [check] either returns, having added one variant tag and then
    ["LAST"] to the classes and touched nothing else, neither the two
    mappings nor any of the seven attributes, or raises and leaves the
    object exactly as it was. *)
Theorem check_adds_two_tags_or_nothing (c : Check.t) :
  match Check.check c with
  | (Return _, c') =>
      exists tag : string,
        is_variant_tag tag = true /\
        Classes.data (Check.classes c') = Classes.data (Check.classes c) ++ [tag; "LAST"] /\
        Check.env c' = Check.env c /\ Check.info c' = Check.info c /\
        Check.type c' = Check.type c /\ Check.release c' = Check.release c /\
        Check.vendor c' = Check.vendor c /\ Check.arch c' = Check.arch c /\
        Check.build_id c' = Check.build_id c /\
        Check.version c' = Check.version c /\
        Check.version_azure c' = Check.version_azure c
  | (Raise _, c') => c' = c
  end.
Proof.
  unfold Check.check, bind, modify, ret, Check.getattr.
  destruct (Check.arch c) as [a |] eqn:Ha; [| reflexivity].
  destruct (Check.release c) as [r |] eqn:Hr; [| reflexivity].
  assert (Hadd : forall tag, is_variant_tag tag = true ->
    exists tag0 : string,
      is_variant_tag tag0 = true /\
      Classes.data (Check.classes
        (Check.with_classes (Classes.add "LAST")
           (Check.with_classes (Classes.add tag) c)))
      = Classes.data (Check.classes c) ++ [tag0; "LAST"]).
  { intros tag Htag. exists tag. split; [exact Htag |].
    cbn [Check.classes Check.with_classes Classes.data Classes.add].
    by rewrite <- app_assoc. }
  destruct (bool_decide _).
  - destruct (Check.vendor c) as [v |] eqn:Hv; [| reflexivity].
    destruct (Vendor.use_linux_image_cloud v).
    + destruct (Hadd "LINUX_IMAGE_CLOUD" eq_refl) as (tag & Htag & Hdata).
      exists tag. fields. rewrite Ha, Hr, Hv.
      repeat split; (assumption || reflexivity).
    + destruct (Hadd "LINUX_IMAGE_BASE" eq_refl) as (tag & Htag & Hdata).
      exists tag. fields. rewrite Ha, Hr, Hv.
      repeat split; (assumption || reflexivity).
  - destruct (Hadd "LINUX_IMAGE_BASE" eq_refl) as (tag & Htag & Hdata).
    exists tag. fields. rewrite Ha, Hr.
    repeat split; (assumption || reflexivity).
Qed.

(** X6: nothing marks the object as finalized.  A second [check] on an
    object with release, vendor and architecture applied succeeds like
    the first and adds the same two tags again, so the sequence then holds
    ["LAST"] twice and no longer ends with a single pass of [check]. *)
Theorem check_twice_adds_again (r : Release.t) (v : Vendor.t) (a : Arch.t)
    (c : Check.t) :
  Check.release c = Some r -> Check.vendor c = Some v -> Check.arch c = Some a ->
  exists c' : Check.t,
    (Check.check ;;; Check.check) c = (Return tt, c') /\
    Classes.data (Check.classes c')
    = Classes.data (Check.classes c)
      ++ [variant_tag r v a; "LAST"; variant_tag r v a; "LAST"].
Proof.
  intros Hr Hv Ha. unfold bind.
  rewrite (check_run r v a c Hr Hv Ha).
  rewrite (check_run r v a) by (fields; assumption).
  eexists. split; [reflexivity |].
  cbn [Check.classes Check.with_classes Classes.data Classes.add].
  by rewrite <- !app_assoc.
Qed.

(** X6 on the sample registry. *)
Lemma check_twice_adds_again_sample :
  exists c' : Check.t,
    (Check.check ;;; Check.check)
      (dimensions_applied BuildTypeEnum.dev bookworm nocloud amd64)
    = (Return tt, c') /\
    Classes.data (Check.classes c')
    = ["DEBIAN"; "CLOUD"; "TYPE_DEV"; "BOOKWORM"; "EXTRAS"; "NOCLOUD"; "AMD64";
       "GRUB_CLOUD"; "LINUX_IMAGE_BASE"; "LAST"; "LINUX_IMAGE_BASE"; "LAST"].
Proof.
  destruct (check_twice_adds_again bookworm nocloud amd64
              (dimensions_applied BuildTypeEnum.dev bookworm nocloud amd64)
              eq_refl eq_refl eq_refl) as (c' & Hrun & Hdata).
  exists c'. split; [exact Hrun |]. rewrite Hdata. reflexivity.
Defined.

(** X7: [set_version] on an object without a type raises, but not before
    it has stored the build id on the object and in the metadata; the
    environment, the classes and the version attributes are as before.  A
    failure of this method is not all-or-nothing. *)
Theorem set_version_failure_keeps_build_id (ver : Z) (date : datetime)
    (bid : BuildId.t) (c : Check.t) :
  Check.type c = None ->
  exists c' : Check.t,
    Check.set_version ver date bid c = (Raise (AttributeError "Check" "type"), c') /\
    Check.build_id c' = Some (BuildId.id bid) /\
    Check.info c' = <["build_id" := BuildId.id bid]> (Check.info c) /\
    Check.env c' = Check.env c /\
    Check.classes c' = Check.classes c /\
    Check.version c' = Check.version c /\
    Check.version_azure c' = Check.version_azure c.
Proof.
  intros Hty. eexists. split; [by apply set_version_without_type |].
  repeat split.
Qed.

(** X7 on a new [Check]. *)
Lemma set_version_failure_keeps_build_id_sample :
  Check.type Check.__init__ = None /\
  exists c' : Check.t,
    Check.set_version 42 sample_date sample_build_id Check.__init__
    = (Raise (AttributeError "Check" "type"), c') /\
    Check.build_id c' = Some "test-1" /\
    Check.info c' !! "build_id" = Some "test-1".
Proof.
  split; [reflexivity |].
  destruct (set_version_failure_keeps_build_id 42 sample_date sample_build_id
              Check.__init__ eq_refl) as (c' & Hrun & Hb & Hi & _).
  exists c'. split; [exact Hrun |]. split; [exact Hb |].
  rewrite Hi. reflexivity.
Defined.

(** ** The constructor: names the registries do not know *)

Lemma prefix_append (value rest : string) : String.prefix value (value +:+ rest) = true.
Proof.
  induction value as [|a value IH].
  - destruct rest; reflexivity.
  - append_step. cbn [String.prefix].
    destruct (ascii_dec a a) as [_ | Hne]; [exact IH | done].
Qed.

Lemma cites_unfold (msg value : string) :
  cites msg value
  = String.prefix value msg
    || match msg with
       | EmptyString => false
       | String _ msg' => cites msg' value
       end.
Proof. destruct msg; reflexivity. Qed.

Lemma cites_append (before value after : string) :
  cites (before +:+ value +:+ after) value = true.
Proof.
  induction before as [|c before IH].
  - change ("" +:+ value +:+ after) with (value +:+ after).
    by rewrite cites_unfold, prefix_append.
  - append_step. rewrite cites_unfold, IH. apply orb_true_r.
Qed.

Lemma join_names_cites {A} (registry : list (string * A)) (k : string) (a : A) :
  BuildCommand.get registry k = Some a ->
  exists before after, BuildCommand.join_names registry = before +:+ k +:+ after.
Proof.
  induction registry as [|[k' a'] registry IH]; [discriminate |].
  cbn [BuildCommand.get].
  destruct (String.eqb_spec k' k) as [-> | Hne].
  - intros _. destruct registry as [|[k2 a2] registry].
    + exists "", "". cbn [BuildCommand.join_names]. by rewrite append_nil_r.
    + exists "", (", " +:+ BuildCommand.join_names ((k2, a2) :: registry)).
      reflexivity.
  - intros Hget. destruct (IH Hget) as (before & after & Hjoin).
    destruct registry as [|[k2 a2] registry]; [discriminate Hget |].
    exists (k' +:+ ", " +:+ before), after.
    change (BuildCommand.join_names ((k', a') :: (k2, a2) :: registry))
      with (k' +:+ ", " +:+ BuildCommand.join_names ((k2, a2) :: registry)).
    by rewrite Hjoin, !append_assoc.
Qed.

(** X8: the message for a name a registry does not know quotes that name,
    and lists every name the registry does know. *)
Theorem invalid_value_lists_names {A} (registry : list (string * A))
    (name known : string) (a : A) :
  BuildCommand.get registry known = Some a ->
  cites (BuildCommand.invalid_value name registry) name = true /\
  cites (BuildCommand.invalid_value name registry) known = true.
Proof.
  intros Hget. unfold BuildCommand.invalid_value. split.
  - apply cites_append.
  - destruct (join_names_cites registry known a Hget) as (before & after & ->).
    rewrite <- !append_assoc.
    rewrite (append_assoc _ known after). apply cites_append.
Qed.

(** X8 on the vendors of the sample registry and the unknown name
    ["gce"]. *)
Lemma invalid_value_lists_names_sample :
  BuildCommand.get (BuildCommand.vendors sample_config) "nocloud" = Some nocloud /\
  BuildCommand.invalid_value "gce" (BuildCommand.vendors sample_config)
  = "invalid value: gce, select one of azure, nocloud" /\
  cites (BuildCommand.invalid_value "gce" (BuildCommand.vendors sample_config))
    "nocloud" = true.
Proof.
  split; [reflexivity |]. split; [reflexivity |].
  exact (proj2 (invalid_value_lists_names (BuildCommand.vendors sample_config)
                  "gce" "nocloud" nocloud eq_refl)).
Defined.


(** ** The constructor: classes, environment and metadata of a build *)

(** X10: the classes come in the order of the calls: the two base
    classes, those of the build type, of the release, of the vendor and
    of the architecture, then ["LOCALDEBS"] if asked for, the variant tag
    and ["LAST"]. *)
Theorem classes_follow_call_order
    (json_dumps : gmap string string -> string) (data_path : string)
    (r : Release.t) (v : Vendor.t) (a : Arch.t) (ver : Z) (bid : BuildId.t)
    (ty : BuildTypeEnum.t) (localdebs : bool) (out : string)
    (override_name : option string) (date : datetime) :
  exists c : Check.t,
    BuildCommand.resolve json_dumps data_path r v a ver bid ty localdebs out
      override_name date Check.__init__ = (Return tt, c) /\
    Classes.data (Check.classes c)
    = ["DEBIAN"; "CLOUD"]
      ++ BuildTypeEnum.fai_classes ty ++ Release.fai_classes r
      ++ Vendor.fai_classes v ++ Arch.fai_classes a
      ++ (if localdebs then ["LOCALDEBS"] else [])
      ++ [if bool_decide (Arch.name a ∈ Release.arch_supports_linux_image_cloud r)
             && Vendor.use_linux_image_cloud v
          then "LINUX_IMAGE_CLOUD" else "LINUX_IMAGE_BASE"; "LAST"].
Proof.
  destruct (resolve_run json_dumps data_path r v a ver bid ty localdebs out
              override_name date) as (c & Hrun & Hcl & _).
  exists c. split; [exact Hrun |]. rewrite Hcl.
  unfold resolved_classes, contributions, variant_tag, enhanced.
  by rewrite <- !app_assoc.
Qed.

(** X11: asking for local packages adds ["LOCALDEBS"] once, right before
    the variant tag and ["LAST"], and changes nothing else: the other
    classes, the environment and the metadata are those of the build
    without it. *)
Theorem localdebs_adds_one_tag
    (json_dumps : gmap string string -> string) (data_path : string)
    (r : Release.t) (v : Vendor.t) (a : Arch.t) (ver : Z) (bid : BuildId.t)
    (ty : BuildTypeEnum.t) (out : string) (override_name : option string)
    (date : datetime) :
  exists (c0 c1 : Check.t) (front : list string),
    BuildCommand.resolve json_dumps data_path r v a ver bid ty false out
      override_name date Check.__init__ = (Return tt, c0) /\
    BuildCommand.resolve json_dumps data_path r v a ver bid ty true out
      override_name date Check.__init__ = (Return tt, c1) /\
    Classes.data (Check.classes c0) = front ++ [variant_tag r v a; "LAST"] /\
    Classes.data (Check.classes c1)
    = front ++ ["LOCALDEBS"; variant_tag r v a; "LAST"] /\
    Check.env c1 = Check.env c0 /\ Check.info c1 = Check.info c0.
Proof.
  destruct (resolve_run json_dumps data_path r v a ver bid ty false out
              override_name date) as (c0 & Hrun0 & Hcl0 & Hinfo0 & Henv0 & _).
  destruct (resolve_run json_dumps data_path r v a ver bid ty true out
              override_name date) as (c1 & Hrun1 & Hcl1 & Hinfo1 & Henv1 & _).
  exists c0, c1, (["DEBIAN"; "CLOUD"] ++ contributions ty r v a).
  split; [exact Hrun0 |]. split; [exact Hrun1 |].
  rewrite Hcl0, Hcl1, Hinfo0, Hinfo1, Henv0, Henv1. unfold resolved_classes.
  repeat split; by rewrite <- ?app_assoc.
Qed.

(** X12: the environment of a build holds the vendor's name as
    [CLOUD_RELEASE_ID], the version as [CLOUD_RELEASE_VERSION], the dump of
    the very metadata the object ends with as [CLOUD_BUILD_INFO], the
    output directory and the data directory, besides the name; the Azure
    version is the only other key, and only for [azure]. *)
Theorem environment_of_build
    (json_dumps : gmap string string -> string) (data_path : string)
    (r : Release.t) (v : Vendor.t) (a : Arch.t) (ver : Z) (bid : BuildId.t)
    (ty : BuildTypeEnum.t) (localdebs : bool) (out : string)
    (override_name : option string) (date : datetime) :
  exists c : Check.t,
    BuildCommand.resolve json_dumps data_path r v a ver bid ty localdebs out
      override_name date Check.__init__ = (Return tt, c) /\
    dom (Check.env c)
    = ({[ "CLOUD_RELEASE_ID"; "CLOUD_RELEASE_VERSION"; "CLOUD_BUILD_INFO";
          "CLOUD_BUILD_NAME"; "CLOUD_BUILD_OUTPUT_DIR"; "CLOUD_BUILD_DATA" ]}
       ∪ (if decide (Vendor.name v = "azure")
          then {[ "CLOUD_RELEASE_VERSION_AZURE" ]} else ∅) : gset string) /\
    Check.env c !! "CLOUD_RELEASE_ID" = Some (Vendor.name v) /\
    Check.env c !! "CLOUD_RELEASE_VERSION" = Check.version c /\
    Check.env c !! "CLOUD_BUILD_INFO" = Some (json_dumps (Check.info c)) /\
    Check.env c !! "CLOUD_BUILD_OUTPUT_DIR" = Some out /\
    Check.env c !! "CLOUD_BUILD_DATA" = Some data_path.
Proof.
  destruct (resolve_run json_dumps data_path r v a ver bid ty localdebs out
              override_name date) as (c & Hrun & _ & Hinfo & Henv & Hver & _).
  exists c. split; [exact Hrun |]. rewrite Henv, Hinfo, Hver.
  unfold resolved_env.
  destruct (String.eqb_spec (Vendor.name v) "azure") as [Heq | Hne].
  - rewrite decide_True by exact Heq. split.
    + rewrite !dom_insert_L, dom_empty_L. set_solver.
    + repeat split; by simplify_map_eq.
  - rewrite decide_False by exact Hne. split.
    + rewrite !dom_insert_L, dom_empty_L. set_solver.
    + repeat split; by simplify_map_eq.
Qed.

(** X13: the metadata of a build holds the name of the build type, the
    basename, id and base id of the release, the names of the vendor and
    of the architecture, the build id and the version; the Azure version
    is the only other key, and only for [azure]. *)
Theorem metadata_of_build
    (json_dumps : gmap string string -> string) (data_path : string)
    (r : Release.t) (v : Vendor.t) (a : Arch.t) (ver : Z) (bid : BuildId.t)
    (ty : BuildTypeEnum.t) (localdebs : bool) (out : string)
    (override_name : option string) (date : datetime) :
  exists c : Check.t,
    BuildCommand.resolve json_dumps data_path r v a ver bid ty localdebs out
      override_name date Check.__init__ = (Return tt, c) /\
    dom (Check.info c)
    = ({[ "type"; "release"; "release_id"; "release_baseid"; "vendor"; "arch";
          "build_id"; "version" ]}
       ∪ (if decide (Vendor.name v = "azure")
          then {[ "version_azure" ]} else ∅) : gset string) /\
    Check.info c !! "type" = Some (BuildTypeEnum.name ty) /\
    Check.info c !! "release" = Some (Release.basename r) /\
    Check.info c !! "release_id" = Some (Release.id r) /\
    Check.info c !! "release_baseid" = Some (Release.baseid r) /\
    Check.info c !! "vendor" = Some (Vendor.name v) /\
    Check.info c !! "arch" = Some (Arch.name a) /\
    Check.info c !! "build_id" = Some (BuildId.id bid) /\
    Check.info c !! "version" = Check.version c.
Proof.
  destruct (resolve_run json_dumps data_path r v a ver bid ty localdebs out
              override_name date) as (c & Hrun & _ & Hinfo & _ & Hver & _).
  exists c. split; [exact Hrun |]. rewrite Hinfo, Hver.
  unfold resolved_info.
  destruct (String.eqb_spec (Vendor.name v) "azure") as [Heq | Hne].
  - rewrite decide_True by exact Heq. split.
    + rewrite !dom_insert_L, dom_empty_L. set_solver.
    + repeat split; by simplify_map_eq.
  - rewrite decide_False by exact Hne. split.
    + rewrite !dom_insert_L, dom_empty_L. set_solver.
    + repeat split; by simplify_map_eq.
Qed.

(** ** The version string tells builds apart *)

Lemma digits_before_hyphen (s1 s2 t1 t2 : string) :
  all_chars is_digit s1 = true -> all_chars is_digit s2 = true ->
  s1 +:+ "-" +:+ t1 = s2 +:+ "-" +:+ t2 -> s1 = s2 /\ t1 = t2.
Proof.
  revert s2. induction s1 as [|c s1 IH]; intros [|c' s2] H1 H2; append_step.
  - intros [= ->]. done.
  - intros [= <- _]. discriminate H2.
  - intros [= -> _]. discriminate H1.
  - intros [= -> Heq].
    cbn [all_chars] in H1, H2.
    apply andb_true_iff in H1 as [_ H1]. apply andb_true_iff in H2 as [_ H2].
    destruct (IH s2 H1 H2 Heq) as [-> ->]. done.
Qed.

Lemma strftime_Ymd_inj (d1 d2 : datetime) :
  datetime_ok d1 = true -> datetime_ok d2 = true ->
  strftime_Ymd d1 = strftime_Ymd d2 -> d1 = d2.
Proof.
  intros H1 H2 Heq.
  destruct (strftime_Ymd_digits d1 H1) as (_ & _ & V1).
  destruct (strftime_Ymd_digits d2 H2) as (_ & _ & V2).
  rewrite Heq, V2 in V1.
  apply datetime_ok_bounds in H1, H2.
  destruct d1 as [y1 m1 dd1], d2 as [y2 m2 dd2]. cbn [year month day] in *.
  assert (y1 = y2 /\ m1 = m2 /\ dd1 = dd2) as (-> & -> & ->) by lia.
  reflexivity.
Qed.

(** X14: the version [set_version] computes tells builds apart: two
    calls for the same build type that give the same version string were
    given the same version number and, for [official], the same date,
    whatever the number of digits of the year. *)
Theorem version_string_tells_builds_apart (ty : BuildTypeEnum.t)
    (v1 v2 : Vendor.t) (ver1 ver2 : Z) (d1 d2 : datetime)
    (bid1 bid2 : BuildId.t) (c1 c2 : Check.t) :
  datetime_ok d1 = true -> datetime_ok d2 = true ->
  Check.type c1 = Some ty -> Check.type c2 = Some ty ->
  Check.vendor c1 = Some v1 -> Check.vendor c2 = Some v2 ->
  Check.version (Check.set_version ver1 d1 bid1 c1).2
  = Check.version (Check.set_version ver2 d2 bid2 c2).2 ->
  ver1 = ver2 /\
  match ty with
  | BuildTypeEnum.official => d1 = d2
  | BuildTypeEnum.dev => True
  end.
Proof.
  intros Hd1 Hd2 Ht1 Ht2 Hv1 Hv2.
  rewrite (set_version_run ty v1 ver1 d1 bid1 c1 Ht1 Hv1).
  rewrite (set_version_run ty v2 ver2 d2 bid2 c2 Ht2 Hv2).
  cbn [snd].
  assert (Hver : forall (v : Vendor.t) ver d bid c,
    Check.version
      (if String.eqb (Vendor.name v) "azure"
       then Check.info_set "version_azure" (spec_version_azure ty ver d)
              (Check.env_set "CLOUD_RELEASE_VERSION_AZURE"
                 (spec_version_azure ty ver d) (versions_stored ty ver d bid c))
       else versions_stored ty ver d bid c)
    = Some (spec_version ty ver d)).
  { intros v ver d bid c. by destruct (String.eqb (Vendor.name v) "azure"). }
  rewrite !Hver. intros [= Heq]. destruct ty; cbn [spec_version] in Heq.
  - split; [| exact I]. by apply (inj pretty).
  - destruct (strftime_Ymd_digits d1 Hd1) as (_ & A1 & _).
    destruct (strftime_Ymd_digits d2 Hd2) as (_ & A2 & _).
    apply digits_before_hyphen in Heq as [Hdate Hrest]; [| assumption..].
    split.
    + by apply (inj pretty).
    + by apply strftime_Ymd_inj.
Qed.

(** X14 on two official builds of the sample date. *)
Lemma version_string_tells_builds_apart_sample :
  datetime_ok sample_date = true /\
  (Check.version
     (Check.set_version 42 sample_date sample_build_id
        (dimensions_applied BuildTypeEnum.official bookworm azure amd64)).2
   = Check.version
       (Check.set_version 42 sample_date sample_build_id
          (dimensions_applied BuildTypeEnum.official bookworm nocloud amd64)).2) /\
  (42 = 42 /\ sample_date = sample_date).
Proof.
  assert (Heq :
    Check.version
      (Check.set_version 42 sample_date sample_build_id
         (dimensions_applied BuildTypeEnum.official bookworm azure amd64)).2
    = Check.version
        (Check.set_version 42 sample_date sample_build_id
           (dimensions_applied BuildTypeEnum.official bookworm nocloud amd64)).2)
    by (vm_compute; reflexivity).
  split; [reflexivity |]. split; [exact Heq |].
  exact (version_string_tells_builds_apart BuildTypeEnum.official azure nocloud
           42 42 sample_date sample_date sample_build_id sample_build_id
           (dimensions_applied BuildTypeEnum.official bookworm azure amd64)
           (dimensions_applied BuildTypeEnum.official bookworm nocloud amd64)
           eq_refl eq_refl eq_refl eq_refl eq_refl eq_refl Heq).
Defined.

(** ** The stored build identifier *)

(** X15: whatever input was accepted, the identifier stored fully matches
    the pattern, and validating it again accepts it and stores it
    unchanged. *)
Theorem stored_build_id_revalidates (raw : string) (b : BuildId.t) :
  BuildId.__init__ raw = Return b ->
  fully_matches (BuildId.id b) = true /\
  BuildId.__init__ (BuildId.id b) = Return b.
Proof.
  intros Hinit. apply BuildId_init_returns in Hinit as [Hm _].
  split; [exact Hm |]. apply BuildId_init_returns. auto.
Qed.

(** X15 on ["ab"] followed by a newline: ["ab"] is stored and accepted
    again. *)
Lemma stored_build_id_revalidates_sample :
  BuildId.__init__ ("ab" +:+ nl) = Return {| BuildId.id := "ab" |} /\
  BuildId.__init__ "ab" = Return {| BuildId.id := "ab" |}.
Proof.
  assert (H : BuildId.__init__ ("ab" +:+ nl) = Return {| BuildId.id := "ab" |})
    by reflexivity.
  split; [exact H |].
  exact (proj2 (stored_build_id_revalidates ("ab" +:+ nl) {| BuildId.id := "ab" |} H)).
Defined.

(** ** The override name and the rest of the build *)

(** X16: the override name reaches the build only through
    [CLOUD_BUILD_NAME]: with any two override names the classes, the
    metadata, the versions and every other entry of the environment are
    the same. *)
Theorem override_name_changes_only_the_name
    (json_dumps : gmap string string -> string) (data_path : string)
    (r : Release.t) (v : Vendor.t) (a : Arch.t) (ver : Z) (bid : BuildId.t)
    (ty : BuildTypeEnum.t) (localdebs : bool) (out : string)
    (override1 override2 : option string) (date : datetime) :
  exists c1 c2 : Check.t,
    BuildCommand.resolve json_dumps data_path r v a ver bid ty localdebs out
      override1 date Check.__init__ = (Return tt, c1) /\
    BuildCommand.resolve json_dumps data_path r v a ver bid ty localdebs out
      override2 date Check.__init__ = (Return tt, c2) /\
    Check.classes c1 = Check.classes c2 /\
    Check.info c1 = Check.info c2 /\
    Check.version c1 = Check.version c2 /\
    Check.version_azure c1 = Check.version_azure c2 /\
    delete "CLOUD_BUILD_NAME" (Check.env c1) = delete "CLOUD_BUILD_NAME" (Check.env c2).
Proof.
  destruct (resolve_run json_dumps data_path r v a ver bid ty localdebs out
              override1 date) as (c1 & Hrun1 & Hcl1 & Hi1 & He1 & Hv1 & Ha1 & _).
  destruct (resolve_run json_dumps data_path r v a ver bid ty localdebs out
              override2 date) as (c2 & Hrun2 & Hcl2 & Hi2 & He2 & Hv2 & Ha2 & _).
  exists c1, c2. split; [exact Hrun1 |]. split; [exact Hrun2 |].
  split; [| split; [congruence | split; [congruence | split; [congruence |]]]].
  - destruct (Check.classes c1) as [l1], (Check.classes c2) as [l2].
    cbn [Classes.data] in *. congruence.
  - rewrite He1, He2. apply map_eq. intros k.
    destruct (decide (k = "CLOUD_BUILD_NAME")) as [-> | Hk].
    + by rewrite !lookup_delete_eq.
    + rewrite !lookup_delete_ne by done.
      destruct (decide (k = "CLOUD_BUILD_DATA")) as [-> | Hk1];
        [by rewrite !lookup_insert_eq |].
      rewrite !(lookup_insert_ne _ "CLOUD_BUILD_DATA") by done.
      destruct (decide (k = "CLOUD_BUILD_OUTPUT_DIR")) as [-> | Hk2];
        [by rewrite !lookup_insert_eq |].
      rewrite !(lookup_insert_ne _ "CLOUD_BUILD_OUTPUT_DIR") by done.
      by rewrite !(lookup_insert_ne _ "CLOUD_BUILD_NAME") by done.
Qed.
